(** * MangaTracker: the record store and the reading-session timer of script.js

    A shallow embedding of class [MangaTracker] (script.js, lines 2-301) and
    of the methods of [UIController] that work on the store: the timer
    (lines 1421-1493, 1565-1581), the lists of titles and the tag filter
    (lines 640-697, 878-894), the figures of the analytics page (lines
    1176-1193) and the dates (lines 1583-1594); followed by the properties
    of the specification that concern them, and by further properties of
    the code.

    Modelling conventions.
    - An instant ([new Date()], an ISO-8601 string produced by
      [toISOString]) is the number of milliseconds since the epoch, a [Z];
      the order of the ISO strings is the order of these numbers, and
      [new Date(s)] of such a string gives the number back.
    - Chapter counts and durations are JavaScript numbers that hold integers;
      they are [Z]. A sum of chapter counts is a sum of doubles, [addNum]:
      exact up to 2^53 in magnitude, rounded to the nearest double beyond.
      Instants and durations stay far below 2^53, where the host computes
      them exactly.
    - Objects are records typed as the data model types them; [null] and
      [undefined] are [None].  A partial object (the argument of
      [updateManga]) is a partial function on field names.
    - The objects held in the arrays are never shared with a caller that
      mutates them afterwards in the code modelled here, so an array of
      objects is a list of records, and a mutation in place of an element
      is a replacement at its index.
    - An array that the store returns can be the store's own
      ([getAllManga], [searchManga] when none of its filters runs): where
      the caller sorts it in place, the sorted list is written back to the
      store.
    - Every [new Date()], [Date.now()] and [Math.random()] is one read of
      the environment: the world carries the clock and the random source
      as oracles together with the number of reads made so far. *)

From stdpp Require Import base option list strings numbers pretty sorting.
From Stdlib Require Import ZArith Lia Ascii.
From Stdlib Require QArith.

Definition isoTime := Z.

(** ** JavaScript helpers *)

(** Truthiness of the values that occur: a string is falsy when empty, a
    number when zero, [null]/[undefined] always, an array or object never. *)
Definition truthyStr (s : string) : bool := negb (String.eqb s "").
Definition truthyNum (n : Z) : bool := negb (n =? 0)%Z.

(** [x || d] for an optional string, an optional number. *)
Definition orStr (x : option string) (d : string) : string :=
  match x with
  | Some s => if truthyStr s then s else d
  | None => d
  end.

Definition orNum (x : option Z) (d : Z) : Z :=
  match x with
  | Some n => if truthyNum n then n else d
  | None => d
  end.

(** [x || null] *)
Definition orNullStr (x : option string) : option string :=
  match x with
  | Some s => if truthyStr s then Some s else None
  | None => None
  end.

Definition orNullNum (x : option Z) : option Z :=
  match x with
  | Some n => if truthyNum n then Some n else None
  | None => None
  end.

(** The numbers of chapters are integers kept in numbers of the host, which
    are IEEE 754 doubles: a sum is the exact sum rounded to the nearest
    double, a tie going to the double whose significand is even. All the
    integers up to [2 ^ 53] in magnitude are doubles, and so are the
    multiples of [2 ^ e] with 53 significant bits beyond. (A sum past the
    largest double, near [2 ^ 1024], is [Infinity] in the host and has no
    counterpart here.) *)
Definition roundToDouble (z : Z) : Z :=
  let a := Z.abs z in
  if (a <=? 2 ^ 53)%Z then z
  else
    let e := (Z.log2 a - 52)%Z in
    let q := (a / 2 ^ e)%Z in
    let r := (a mod 2 ^ e)%Z in
    let q' := match (2 * r ?= 2 ^ e)%Z with
              | Lt => q
              | Gt => (q + 1)%Z
              | Eq => if Z.even q then q else (q + 1)%Z
              end in
    (Z.sgn z * (q' * 2 ^ e))%Z.

(** [a + b] on two numbers. *)
Definition addNum (a b : Z) : Z := roundToDouble (a + b).

(** [Number.prototype.toString(36)] on an integer. *)
Definition digit36 (d : Z) : ascii :=
  if (d <? 10)%Z then ascii_of_nat (48 + Z.to_nat d)
  else ascii_of_nat (87 + Z.to_nat d).

Fixpoint digits36 (fuel : nat) (n : Z) (acc : string) : string :=
  match fuel with
  | O => acc
  | S k =>
      let acc' := String (digit36 (n mod 36)) acc in
      if (n / 36 =? 0)%Z then acc' else digits36 k (n / 36) acc'
  end.

Definition toString36 (n : Z) : string :=
  if (n <? 0)%Z
  then "-" +:+ digits36 (S (Z.to_nat (Z.log2 (- n)))) (- n) ""
  else digits36 (S (Z.to_nat (Z.log2 n))) n "".

(** [String.prototype.includes] *)
Fixpoint includes (s sub : string) : bool :=
  String.prefix sub s ||
  match s with
  | EmptyString => false
  | String _ s' => includes s' sub
  end.

(** [Math.round (a / b)] for integers [a] and [b > 0]: the nearest integer,
    a half rounded towards plus infinity. *)
Definition roundDiv (a b : Z) : Z := ((2 * a + b) / (2 * b))%Z.

(** ** Data model *)

Module Manga.

Record t := mk {
  id : string;
  title : string;
  type : string;
  status : string;
  currentChapter : Z;
  totalChapters : option Z;
  rating : option Z;
  tags : list string;
  notes : string;
  coverImage : option string;
  author : string;
  startDate : isoTime;
  endDate : option isoTime;
  lastRead : option isoTime;
  createdAt : isoTime;
  updatedAt : isoTime
}.

(** The keys of a title object. *)
Inductive field :=
| Fid | Ftitle | Ftype | Fstatus | FcurrentChapter | FtotalChapters
| Frating | Ftags | Fnotes | FcoverImage | Fauthor | FstartDate
| FendDate | FlastRead | FcreatedAt | FupdatedAt.

#[global] Instance field_eq_dec : EqDecision field.
Proof. solve_decision. Defined.

Definition field_type (f : field) : Type :=
  match f with
  | Fid | Ftitle | Ftype | Fstatus | Fnotes | Fauthor => string
  | FcurrentChapter => Z
  | FtotalChapters | Frating => option Z
  | Ftags => list string
  | FcoverImage => option string
  | FstartDate | FcreatedAt | FupdatedAt => isoTime
  | FendDate | FlastRead => option isoTime
  end.

Definition get (f : field) (m : t) : field_type f :=
  match f with
  | Fid => id m
  | Ftitle => title m
  | Ftype => type m
  | Fstatus => status m
  | FcurrentChapter => currentChapter m
  | FtotalChapters => totalChapters m
  | Frating => rating m
  | Ftags => tags m
  | Fnotes => notes m
  | FcoverImage => coverImage m
  | Fauthor => author m
  | FstartDate => startDate m
  | FendDate => endDate m
  | FlastRead => lastRead m
  | FcreatedAt => createdAt m
  | FupdatedAt => updatedAt m
  end.

(** A partial title object: the keys it has, each with its value. *)
Definition updates := forall f : field, option (field_type f).

(** [{}] *)
Definition none : updates := fun _ => None.

(** [{f: v}] *)
Definition only (f : field) (v : field_type f) : updates :=
  fun g =>
    match decide (f = g) with
    | left e => Some (eq_rect f field_type v g e)
    | right _ => None
    end.

(** [{...u, f: v}] *)
Definition and (u : updates) (f : field) (v : field_type f) : updates :=
  fun g =>
    match only f v g with
    | Some x => Some x
    | None => u g
    end.

(** [{...m, ...u}] *)
Definition spread (m : t) (u : updates) : t :=
  let pick f := default (get f m) (u f) in
  {| id := pick Fid;
     title := pick Ftitle;
     type := pick Ftype;
     status := pick Fstatus;
     currentChapter := pick FcurrentChapter;
     totalChapters := pick FtotalChapters;
     rating := pick Frating;
     tags := pick Ftags;
     notes := pick Fnotes;
     coverImage := pick FcoverImage;
     author := pick Fauthor;
     startDate := pick FstartDate;
     endDate := pick FendDate;
     lastRead := pick FlastRead;
     createdAt := pick FcreatedAt;
     updatedAt := pick FupdatedAt |}.

End Manga.

(** The argument of [addManga]: the title is given, every other key may be
    missing. *)
Module MangaData.

Record t := mk {
  title : string;
  type : option string;
  status : option string;
  currentChapter : option Z;
  totalChapters : option Z;
  rating : option Z;
  tags : option (list string);
  notes : option string;
  coverImage : option string;
  author : option string;
  startDate : option isoTime;
  endDate : option isoTime;
  lastRead : option isoTime
}.

(** [{title: s}] *)
Definition named (s : string) : t :=
  mk s None None None None None None None None None None None None.

End MangaData.

Module Session.

Record t := mk {
  id : string;
  mangaId : option string;
  startTime : isoTime;
  endTime : option isoTime;
  chaptersRead : Z;
  active : bool
}.

End Session.

Module Bookmark.

Record t := mk {
  id : string;
  mangaId : string;
  chapterNumber : Z;
  note : string;
  createdAt : isoTime
}.

End Bookmark.

(** A value of the free-form [details] payload of a history entry. *)
Inductive detail :=
| DStr (s : string)
| DNum (n : Z).

Module HistoryEntry.

Record t := mk {
  id : string;
  mangaId : string;
  action : string;
  details : list (string * detail);
  timestamp : isoTime
}.

End HistoryEntry.

Module Settings.

Record t := mk {
  dailyGoal : Z;
  theme : string;
  notifications : bool
}.

End Settings.

(** [this.data], the persisted document. *)
Record Data := mkData {
  manga : list Manga.t;
  readingSessions : list Session.t;
  settings : Settings.t;
  tags : list string;
  bookmarks : list Bookmark.t;
  history : list HistoryEntry.t
}.

(** What [initializeDefaultData] leaves when nothing was stored. *)
Definition defaultData : Data :=
  {| manga := [];
     readingSessions := [];
     settings := Settings.mk 5 "light" true;
     tags := ["Action"; "Romance"; "Comedy"; "Drama"; "Fantasy"; "Sci-Fi"];
     bookmarks := [];
     history := [] |}.

(** ** The world: the tracker's data and its environment *)

Record World := mkWorld {
  data : Data;
  (** the document last written to [localStorage], if any *)
  stored : option Data;
  (** whether the k-th [localStorage.setItem] succeeds *)
  setItemOk : nat -> bool;
  writes : nat;
  (** the k-th reading of the clock, in milliseconds *)
  clock : nat -> isoTime;
  clockReads : nat;
  (** the k-th [Math.random().toString(36).substr(2)] *)
  random : nat -> string;
  randomDraws : nat
}.

Definition M (A : Type) : Type := World -> A * World.

Definition ret {A} (a : A) : M A := fun w => (a, w).

Definition bind {A B} (c : M A) (k : A -> M B) : M B :=
  fun w => let (a, w') := c w in k a w'.

Notation "x <- c ;; k" := (bind c (fun x => k))
  (at level 100, c at next level, k at level 200, right associativity).
Notation "c ;;; k" := (bind c (fun _ => k))
  (at level 100, k at level 200, right associativity).

(** [new Date().toISOString()], [Date.now()] *)
Definition now : M isoTime :=
  fun w =>
    (clock w (clockReads w),
     mkWorld (data w) (stored w) (setItemOk w) (writes w)
             (clock w) (S (clockReads w)) (random w) (randomDraws w)).

Definition mathRandom36 : M string :=
  fun w =>
    (random w (randomDraws w),
     mkWorld (data w) (stored w) (setItemOk w) (writes w)
             (clock w) (clockReads w) (random w) (S (randomDraws w))).

Definition getData : M Data := fun w => (data w, w).

Definition setData (d : Data) : M unit :=
  fun w =>
    (tt, mkWorld d (stored w) (setItemOk w) (writes w)
                 (clock w) (clockReads w) (random w) (randomDraws w)).

Definition setManga (l : list Manga.t) (d : Data) : Data :=
  mkData l (readingSessions d) (settings d) (tags d) (bookmarks d) (history d).

Definition setReadingSessions (l : list Session.t) (d : Data) : Data :=
  mkData (manga d) l (settings d) (tags d) (bookmarks d) (history d).

Definition setBookmarks (l : list Bookmark.t) (d : Data) : Data :=
  mkData (manga d) (readingSessions d) (settings d) (tags d) l (history d).

Definition setHistory (l : list HistoryEntry.t) (d : Data) : Data :=
  mkData (manga d) (readingSessions d) (settings d) (tags d) (bookmarks d) l.

(** ** class MangaTracker *)

Module MangaTracker.

(** [saveData]: a failed write is caught and logged, and the data in
    memory stay as they are. *)
Definition saveData : M unit :=
  fun w =>
    (tt, mkWorld (data w)
                 (if setItemOk w (writes w) then Some (data w) else stored w)
                 (setItemOk w) (S (writes w))
                 (clock w) (clockReads w) (random w) (randomDraws w)).

Definition generateId : M string :=
  t <- now ;;
  r <- mathRandom36 ;;
  ret (toString36 t +:+ r).

Definition addManga (mangaData : MangaData.t) : M Manga.t :=
  i <- generateId ;;
  sd <- match MangaData.startDate mangaData with
        | Some t => ret t
        | None => now
        end ;;
  ca <- now ;;
  ua <- now ;;
  let manga_ :=
    {| Manga.id := i;
       Manga.title := MangaData.title mangaData;
       Manga.type := orStr (MangaData.type mangaData) "manga";
       Manga.status := orStr (MangaData.status mangaData) "reading";
       Manga.currentChapter := orNum (MangaData.currentChapter mangaData) 0;
       Manga.totalChapters := orNullNum (MangaData.totalChapters mangaData);
       Manga.rating := orNullNum (MangaData.rating mangaData);
       Manga.tags := default [] (MangaData.tags mangaData);
       Manga.notes := orStr (MangaData.notes mangaData) "";
       Manga.coverImage := orNullStr (MangaData.coverImage mangaData);
       Manga.author := orStr (MangaData.author mangaData) "";
       Manga.startDate := sd;
       Manga.endDate := MangaData.endDate mangaData;
       Manga.lastRead := MangaData.lastRead mangaData;
       Manga.createdAt := ca;
       Manga.updatedAt := ua |} in
  d <- getData ;;
  setData (setManga (manga d ++ [manga_]) d) ;;;
  saveData ;;;
  ret manga_.

(** [this.data.manga.findIndex(m => m.id === id)] together with the
    element found. *)
Definition findManga (id : string) (d : Data) : option (nat * Manga.t) :=
  list_find (fun m => Manga.id m = id) (manga d).

Definition updateManga (id : string) (updates : Manga.updates)
  : M (option Manga.t) :=
  d <- getData ;;
  match findManga id d with
  | Some (index, old) =>
      t <- now ;;
      let new := Manga.spread (Manga.spread old updates)
                              (Manga.only Manga.FupdatedAt t) in
      setData (setManga (<[index := new]> (manga d)) d) ;;;
      saveData ;;;
      ret (Some new)
  | None => ret None
  end.

Definition deleteManga (id : string) : M (option Manga.t) :=
  d <- getData ;;
  match findManga id d with
  | Some (index, deleted) =>
      setData (setManga (delete index (manga d)) d) ;;;
      saveData ;;;
      ret (Some deleted)
  | None => ret None
  end.

Definition getManga (id : string) : M (option Manga.t) :=
  d <- getData ;;
  ret (snd <$> findManga id d).

Definition getAllManga : M (list Manga.t) :=
  d <- getData ;;
  ret (manga d).

(** *** Reading sessions *)

Definition startReadingSession (mangaId : option string) : M Session.t :=
  i <- generateId ;;
  t <- now ;;
  let session :=
    {| Session.id := i;
       Session.mangaId := mangaId;
       Session.startTime := t;
       Session.endTime := None;
       Session.chaptersRead := 0;
       Session.active := true |} in
  d <- getData ;;
  setData (setReadingSessions (readingSessions d ++ [session]) d) ;;;
  saveData ;;;
  ret session.

(** [this.data.readingSessions.find(s => s.id === sessionId)] with the
    index of the object found, which is mutated where it stands. *)
Definition findSession (sessionId : string) (d : Data)
  : option (nat * Session.t) :=
  list_find (fun s => Session.id s = sessionId) (readingSessions d).

(** [session.mangaId && chaptersRead > 0], then the title it names. *)
Definition progressTarget (session : Session.t) (chaptersRead : Z)
  : option string :=
  match Session.mangaId session with
  | Some mid => if truthyStr mid && (0 <? chaptersRead)%Z then Some mid else None
  | None => None
  end.

(** The block "Update manga progress" of [endReadingSession]. *)
Definition updateMangaProgress (session : Session.t) (chaptersRead : Z)
  : M unit :=
  match progressTarget session chaptersRead with
  | Some mid =>
      found <- getManga mid ;;
      match found with
      | Some manga_ =>
          lr <- now ;;
          updateManga (Manga.id manga_)
            (Manga.and
               (Manga.only Manga.FcurrentChapter
                           (addNum (Manga.currentChapter manga_) chaptersRead))
               Manga.FlastRead (Some lr)) ;;;
          ret tt
      | None => ret tt
      end
  | None => ret tt
  end.

(** [chaptersRead] is [None] when the argument is left out: it is then 0. *)
Definition endReadingSession (sessionId : string) (chaptersRead_ : option Z)
  : M (option Session.t) :=
  let chaptersRead := default 0%Z chaptersRead_ in
  d <- getData ;;
  match findSession sessionId d with
  | Some (k, session) =>
      t <- now ;;
      let session' :=
        {| Session.id := Session.id session;
           Session.mangaId := Session.mangaId session;
           Session.startTime := Session.startTime session;
           Session.endTime := Some t;
           Session.chaptersRead := chaptersRead;
           Session.active := false |} in
      setData (setReadingSessions (<[k := session']> (readingSessions d)) d) ;;;
      saveData ;;;
      updateMangaProgress session' chaptersRead ;;;
      ret (Some session')
  | None => ret None
  end.

Definition getActiveSession : M (option Session.t) :=
  d <- getData ;;
  ret (snd <$> list_find (fun s => Session.active s = true) (readingSessions d)).

(** *** Statistics *)

Record Statistics := mkStatistics {
  totalManga : Z;
  currentlyReading : Z;
  completed : Z;
  onHold : Z;
  dropped : Z;
  planToRead : Z;
  totalChaptersRead : Z;
  totalReadingSessions : Z;
  averageSessionTime : Z;
  dailyProgress : Z;
  weeklyProgress : Z;
  monthlyProgress : Z
}.

(** The [reduce] of [calculateAverageSessionTime]: a session without an
    end time adds nothing (a start time is always there). *)
Definition totalTime (sessions : list Session.t) : Z :=
  foldl (fun sum session =>
           match Session.endTime session with
           | Some e => (sum + (e - Session.startTime session))%Z
           | None => sum
           end) 0%Z sessions.

(** [Math.round(totalTime / sessions.length / 1000 / 60)]. The three
    floating-point divisions land on the same side of every half-integer
    as the exact quotient [totalTime / (60000 * length)] as long as the
    total stays below 10^15 milliseconds, and they are exact on a
    half-integer, so the result is the rounding of the exact quotient. *)
Definition calculateAverageSessionTime (sessions : list Session.t) : Z :=
  if decide (length sessions = 0) then 0%Z
  else roundDiv (totalTime sessions) (Z.of_nat (length sessions) * 1000 * 60).

Definition countStatus (s : string) (l : list Manga.t) : Z :=
  Z.of_nat (length (filter (fun m => Manga.status m = s) l)).

Definition sumChaptersRead (l : list Session.t) : Z :=
  foldl (fun sum s => addNum sum (Session.chaptersRead s)) 0%Z l.

Section Calendar.

(** The calendar of the host, in its local time zone:
    [toDateString], [d.setDate(d.getDate() - 7)] and
    [d.setMonth(d.getMonth() - 1)]. *)
Variable toDateString : isoTime -> string.
Variable weekBefore : isoTime -> isoTime.
Variable monthBefore : isoTime -> isoTime.

Definition endedWhen (p : isoTime -> bool) (s : Session.t) : bool :=
  negb (Session.active s) &&
  match Session.endTime s with
  | Some e => p e
  | None => false
  end.

Definition getDailyProgress : M Z :=
  t <- now ;;
  let today := toDateString t in
  d <- getData ;;
  ret (sumChaptersRead
         (filter (fun s => endedWhen (fun e => String.eqb (toDateString e) today) s = true)
                 (readingSessions d))).

Definition getWeeklyProgress : M Z :=
  t <- now ;;
  let oneWeekAgo := weekBefore t in
  d <- getData ;;
  ret (sumChaptersRead
         (filter (fun s => endedWhen (fun e => (oneWeekAgo <=? e)%Z) s = true)
                 (readingSessions d))).

Definition getMonthlyProgress : M Z :=
  t <- now ;;
  let oneMonthAgo := monthBefore t in
  d <- getData ;;
  ret (sumChaptersRead
         (filter (fun s => endedWhen (fun e => (oneMonthAgo <=? e)%Z) s = true)
                 (readingSessions d))).

Definition getStatistics : M Statistics :=
  d <- getData ;;
  let manga_ := manga d in
  let sessions := filter (fun s => Session.active s = false) (readingSessions d) in
  daily <- getDailyProgress ;;
  weekly <- getWeeklyProgress ;;
  monthly <- getMonthlyProgress ;;
  ret {| totalManga := Z.of_nat (length manga_);
         currentlyReading := countStatus "reading" manga_;
         completed := countStatus "completed" manga_;
         onHold := countStatus "on-hold" manga_;
         dropped := countStatus "dropped" manga_;
         planToRead := countStatus "plan-to-read" manga_;
         totalChaptersRead :=
           foldl (fun sum m => addNum sum (Manga.currentChapter m)) 0%Z manga_;
         totalReadingSessions := Z.of_nat (length sessions);
         averageSessionTime := calculateAverageSessionTime sessions;
         dailyProgress := daily;
         weeklyProgress := weekly;
         monthlyProgress := monthly |}.

End Calendar.

(** *** Search *)

Record Filters := mkFilters {
  f_status : option string;
  f_type : option string;
  f_tags : option (list string)
}.

Definition noFilters : Filters := mkFilters None None None.

Section Search.

(** [String.prototype.toLowerCase] of the host. *)
Variable toLowerCase : string -> string.

Definition textMatch (searchTerm : string) (m : Manga.t) : bool :=
  includes (toLowerCase (Manga.title m)) searchTerm ||
  includes (toLowerCase (Manga.author m)) searchTerm ||
  existsb (fun tag => includes (toLowerCase tag) searchTerm) (Manga.tags m).

Definition tagMatch (wanted : list string) (m : Manga.t) : bool :=
  existsb (fun tag => bool_decide (tag ∈ Manga.tags m)) wanted.

(** [query] is [""] when the caller has no text to search for. *)
Definition searchManga (query : string) (filters : Filters)
  : M (list Manga.t) :=
  d <- getData ;;
  let results := manga d in
  let results :=
    if truthyStr query
    then let searchTerm := toLowerCase query in
         filter (fun m => textMatch searchTerm m = true) results
    else results in
  let results :=
    match f_status filters with
    | Some s => if truthyStr s
                then filter (fun m => Manga.status m = s) results
                else results
    | None => results
    end in
  let results :=
    match f_type filters with
    | Some s => if truthyStr s
                then filter (fun m => Manga.type m = s) results
                else results
    | None => results
    end in
  let results :=
    match f_tags filters with
    | Some wanted => if decide (0 < length wanted)
                     then filter (fun m => tagMatch wanted m = true) results
                     else results
    | None => results
    end in
  ret results.

End Search.

(** *** Bookmarks *)

Definition addBookmark (mangaId : string) (chapterNumber : Z)
                       (note : option string) : M Bookmark.t :=
  i <- generateId ;;
  t <- now ;;
  let bookmark :=
    {| Bookmark.id := i;
       Bookmark.mangaId := mangaId;
       Bookmark.chapterNumber := chapterNumber;
       Bookmark.note := default "" note;
       Bookmark.createdAt := t |} in
  d <- getData ;;
  setData (setBookmarks (bookmarks d ++ [bookmark]) d) ;;;
  saveData ;;;
  ret bookmark.

Definition removeBookmark (id : string) : M (option Bookmark.t) :=
  d <- getData ;;
  match list_find (fun b => Bookmark.id b = id) (bookmarks d) with
  | Some (index, deleted) =>
      setData (setBookmarks (delete index (bookmarks d)) d) ;;;
      saveData ;;;
      ret (Some deleted)
  | None => ret None
  end.

(** *** History *)

Definition addToHistory (mangaId action : string)
                        (details : list (string * detail))
  : M HistoryEntry.t :=
  i <- generateId ;;
  t <- now ;;
  let historyEntry :=
    {| HistoryEntry.id := i;
       HistoryEntry.mangaId := mangaId;
       HistoryEntry.action := action;
       HistoryEntry.details := details;
       HistoryEntry.timestamp := t |} in
  d <- getData ;;
  let unshifted := historyEntry :: history d in
  setData (setHistory (if decide (100 < length unshifted)
                       then take 100 unshifted
                       else unshifted) d) ;;;
  saveData ;;;
  ret historyEntry.


(** *** Construction *)

(** What [JSON.parse] gives back: a document in which any collection may
    be missing. *)
Record Loaded := mkLoaded {
  l_manga : option (list Manga.t);
  l_readingSessions : option (list Session.t);
  l_settings : option Settings.t;
  l_tags : option (list string);
  l_bookmarks : option (list Bookmark.t);
  l_history : option (list HistoryEntry.t)
}.

(** [{}] *)
Definition emptyObject : Loaded := mkLoaded None None None None None None.

(** The document [saveData] wrote, parsed again. *)
Definition parsed (d : Data) : Loaded :=
  mkLoaded (Some (manga d)) (Some (readingSessions d)) (Some (settings d))
           (Some (tags d)) (Some (bookmarks d)) (Some (history d)).

(** [loadData]: the stored document, or [{}] when the key is absent. (The
    storage of the world holds documents written by [saveData] only, so
    the [catch] of a text that does not parse has no counterpart.) *)
Definition loadData : M Loaded :=
  fun w =>
    (match stored w with
     | Some d => parsed d
     | None => emptyObject
     end, w).

(** [initializeDefaultData] on [this.data = loaded]: an array or an object
    that is there is truthy, even when empty, and is kept. *)
Definition initializeDefaultData (loaded : Loaded) : M unit :=
  setData
    {| manga := default [] (l_manga loaded);
       readingSessions := default [] (l_readingSessions loaded);
       settings := default (Settings.mk 5 "light" true) (l_settings loaded);
       tags := default ["Action"; "Romance"; "Comedy"; "Drama"; "Fantasy"; "Sci-Fi"]
                       (l_tags loaded);
       bookmarks := default [] (l_bookmarks loaded);
       history := default [] (l_history loaded) |} ;;;
  saveData.

(** [new MangaTracker()] *)
Definition constructor : M unit :=
  loaded <- loadData ;;
  initializeDefaultData loaded.

End MangaTracker.

(** ** class UIController: the reading-session timer *)

Module UIController.

(** The answer to a [prompt], after [parseInt]: [None] when the user
    cancelled or typed no number. *)
Definition answer := option Z.

Definition optionText (m : Manga.t) : string :=
  Manga.title m +:+ " (Ch. " +:+ pretty (Manga.currentChapter m) +:+ ")".

Definition showMangaSelectionModal (options : list string) (selection : answer)
  : option nat :=
  match selection with
  | None => None
  | Some n =>
      let index := (n - 1)%Z in
      if (0 <=? index)%Z && (index <? Z.of_nat (length options))%Z
      then Some (Z.to_nat index)
      else None
  end.

(** [this.activeTimer] is the only field of the controller the timer
    uses; the methods return its new value. *)
Definition startTimer (selection : answer) : M (option Session.t) :=
  allManga <- MangaTracker.getAllManga ;;
  let selectedMangaId :=
    if decide (0 < length allManga) then
      match showMangaSelectionModal (optionText <$> allManga) selection with
      | Some selectedIndex => Manga.id <$> allManga !! selectedIndex
      | None => None
      end
    else None in
  session <- MangaTracker.startReadingSession selectedMangaId ;;
  ret (Some session).

Definition getSessionDuration (activeTimer : option Session.t) : M Z :=
  match activeTimer with
  | None => ret 0%Z
  | Some session =>
      t <- now ;;
      ret ((t - Session.startTime session) / 1000)%Z
  end.

(** The block "Add to history" of [stopTimer], for the session the
    timer holds. *)
Definition addReadToHistory (chapters : Z) (session : Session.t) : M unit :=
  match Session.mangaId session with
  | Some mid =>
      if truthyStr mid then
        found <- MangaTracker.getManga mid ;;
        match found with
        | Some manga_ =>
            duration <- getSessionDuration (Some session) ;;
            MangaTracker.addToHistory mid "read"
              [("title", DStr (Manga.title manga_));
               ("chaptersRead", DNum chapters);
               ("sessionDuration", DNum duration)] ;;;
            ret tt
        | None => ret tt
        end
      else ret tt
  | None => ret tt
  end.

Definition stopTimer (chaptersRead : answer) (activeTimer : option Session.t)
  : M (option Session.t) :=
  match activeTimer with
  | Some session =>
      let chapters := orNum chaptersRead 0 in
      MangaTracker.endReadingSession (Session.id session) (Some chapters) ;;;
      addReadToHistory chapters session ;;;
      ret None
  | None => ret None
  end.

Definition toggleTimer (input : answer) (activeTimer : option Session.t)
  : M (option Session.t) :=
  match activeTimer with
  | Some _ => stopTimer input activeTimer
  | None => startTimer input
  end.

(** The part of [setupTimerButton] run by the constructor. *)
Definition setupTimerButton : M (option Session.t) :=
  MangaTracker.getActiveSession.

(** *** Lists of titles *)

(** [Array.prototype.sort] with a comparator: [compare a b] is the sign of
    what the comparator returns for [a] and [b]. The sort is stable, and
    for a comparator that orders the elements one way only there is one
    stable result: the one that insertion gives. *)
Section Sort.

Context {A : Type} (compare : A -> A -> comparison).

(** [x], which stood before every element of the sorted [l], takes its
    place in it: before the first element it does not have to follow. *)
Fixpoint insertSorted (x : A) (l : list A) : list A :=
  match l with
  | [] => [x]
  | y :: l' =>
      match compare x y with
      | Gt => y :: insertSorted x l'
      | _ => x :: l
      end
  end.

Definition sortWith (l : list A) : list A := foldr insertSorted [] l.

End Sort.

(** [a.lastRead ? new Date(a.lastRead) : new Date(0)] *)
Definition lastReadDate (m : Manga.t) : Z := default 0%Z (Manga.lastRead m).

(** [a.totalChapters ? a.currentChapter / a.totalChapters : 0]: the
    quotient is taken exactly (two different fractions of chapter counts
    below 2^26 are different floating-point numbers). *)
Definition progressOf (m : Manga.t) : QArith_base.Q :=
  match Manga.totalChapters m with
  | Some total =>
      if truthyNum total
      then QArith_base.Qdiv (QArith_base.inject_Z (Manga.currentChapter m))
                            (QArith_base.inject_Z total)
      else QArith_base.inject_Z 0
  | None => QArith_base.inject_Z 0
  end.

Section Titles.

(** [String.prototype.toLowerCase] and the sign of
    [String.prototype.localeCompare], of the host. *)
Variable toLowerCase : string -> string.
Variable localeCompare : string -> string -> comparison.

(** The comparator of [sortManga]. *)
Definition compareBy (sortBy : string) (a b : Manga.t) : comparison :=
  if String.eqb sortBy "title" then
    localeCompare (Manga.title a) (Manga.title b)
  else if String.eqb sortBy "lastRead" then
    (lastReadDate b ?= lastReadDate a)%Z
  else if String.eqb sortBy "progress" then
    QArith_base.Qcompare (progressOf b) (progressOf a)
  else if String.eqb sortBy "rating" then
    (orNum (Manga.rating b) 0 ?= orNum (Manga.rating a) 0)%Z
  else if String.eqb sortBy "createdAt" then
    (Manga.createdAt b ?= Manga.createdAt a)%Z
  else Eq.

(** [sortManga]: the array it is given, sorted where it stands. *)
Definition sortManga (mangaList : list Manga.t) (sortBy : string)
  : list Manga.t :=
  sortWith (compareBy sortBy) mangaList.

(** Whether the array [searchManga] returns is [this.data.manga] itself:
    none of its four filters ran. *)
Definition searchReturnsStore (query : string) (filters : MangaTracker.Filters)
  : bool :=
  negb (truthyStr query) &&
  negb (from_option truthyStr false (MangaTracker.f_status filters)) &&
  negb (from_option truthyStr false (MangaTracker.f_type filters)) &&
  negb (from_option (fun wanted => bool_decide (0 < length wanted)) false
                    (MangaTracker.f_tags filters)).

(** [searchManga] followed by [sortManga]: the sort is in place, so it
    reorders the titles of the store when the array is the store's. *)
Definition searchAndSort (query : string) (filters : MangaTracker.Filters)
                         (sortBy : string) : M (list Manga.t) :=
  filteredManga <- MangaTracker.searchManga toLowerCase query filters ;;
  let sorted := sortManga filteredManga sortBy in
  (if searchReturnsStore query filters
   then d <- getData ;; setData (setManga sorted d)
   else ret tt) ;;;
  ret sorted.

(** [filterManga], from the values of the four controls and
    [this.selectedTags]; the list it renders is returned. *)
Definition filterManga (search statusFilter typeFilter sortBy : string)
                       (selectedTags : option (list string))
  : M (list Manga.t) :=
  let searchTerm := toLowerCase search in
  searchAndSort searchTerm
    (MangaTracker.mkFilters (Some statusFilter) (Some typeFilter)
                            (Some (default [] selectedTags)))
    sortBy.

(** [searchLibrary], likewise. *)
Definition searchLibrary (search statusFilter typeFilter sortBy : string)
  : M (list Manga.t) :=
  let searchTerm := toLowerCase search in
  searchAndSort searchTerm
    (MangaTracker.mkFilters (Some statusFilter) (Some typeFilter) None)
    sortBy.

End Titles.

(** [toggleTagFilter], on [this.selectedTags] ([None] before the first
    use); the new value. The page is drawn again from it by
    [filterManga]. *)
Definition toggleTagFilter (tag : string) (selectedTags : option (list string))
  : list string :=
  let selected := default [] selectedTags in
  match list_find (fun t => t = tag) selected with
  | Some (index, _) => delete index selected
  | None => selected ++ [tag]
  end.

(** [getTopMangaByChapters]: the array it is given is sorted where it
    stands. *)
Definition byChapters (a b : Manga.t) : comparison :=
  (Manga.currentChapter b ?= Manga.currentChapter a)%Z.

Definition getTopMangaByChapters (mangaList : list Manga.t) (limit : nat)
  : list Manga.t :=
  take limit (sortWith byChapters mangaList).

(** The call [this.getTopMangaByChapters(allManga, 5)] of [loadAnalytics],
    where [allManga] is the array of the store. *)
Definition loadAnalyticsTopManga : M (list Manga.t) :=
  allManga <- MangaTracker.getAllManga ;;
  d <- getData ;;
  setData (setManga (sortWith byChapters allManga) d) ;;;
  ret (getTopMangaByChapters allManga 5).

(** [Math.ceil (a / b)] for integers [a] and [b > 0]. *)
Definition ceilDiv (a b : Z) : Z := (- ((- a) / b))%Z.

Definition msPerDay : Z := (1000 * 60 * 60 * 24)%Z.

(** [getDaysSinceFirstManga]: the [reduce] keeps the first of the titles
    created earliest. *)
Definition getDaysSinceFirstManga (mangaList : list Manga.t) : M Z :=
  match mangaList with
  | [] => ret 1%Z
  | first :: rest =>
      let firstManga :=
        foldl (fun earliest manga_ =>
                 if (Manga.createdAt manga_ <? Manga.createdAt earliest)%Z
                 then manga_ else earliest) first rest in
      t <- now ;;
      let daysDiff := ceilDiv (t - Manga.createdAt firstManga) msPerDay in
      ret (Z.max daysDiff 1)
  end.

Section Dates.

(** [Date.prototype.toLocaleDateString] of the host. *)
Variable toLocaleDateString : isoTime -> string.

Definition formatDate (date : isoTime) : M string :=
  t <- now ;;
  let diffTime := Z.abs (t - date) in
  let diffDays := ceilDiv diffTime msPerDay in
  if (diffDays =? 1)%Z then ret "Yesterday"
  else if (diffDays <? 7)%Z then ret (pretty diffDays +:+ " days ago")
  else if (diffDays <? 30)%Z
       then ret (pretty (ceilDiv diffDays 7) +:+ " weeks ago")
  else ret (toLocaleDateString date).

End Dates.

End UIController.

(** ** Worlds to run the operations in *)

(** A fresh tracker whose clock reads [t0], [t0 + step], [t0 + 2 step], ...
    and whose random source yields [r] for ever. *)
Definition freshWorld (t0 step : Z) (r : string) : World :=
  {| data := defaultData;
     stored := None;
     setItemOk := fun _ => true;
     writes := 0;
     clock := fun k => (t0 + step * Z.of_nat k)%Z;
     clockReads := 0;
     random := fun _ => r;
     randomDraws := 0 |}.

(** [toLowerCase] on strings of ASCII characters. *)
Definition lowerChar (c : ascii) : ascii :=
  let n := nat_of_ascii c in
  if (65 <=? n)%nat && (n <=? 90)%nat then ascii_of_nat (n + 32) else c.

Fixpoint asciiLower (s : string) : string :=
  match s with
  | EmptyString => EmptyString
  | String c s' => String (lowerChar c) (asciiLower s')
  end.

(** ** Sequences of calls *)

(** One [addToHistory] per triple, in order; the entries come back in the
    order of the calls. *)
Fixpoint recordAll (calls : list (string * string * list (string * detail)))
  : M (list HistoryEntry.t) :=
  match calls with
  | [] => ret []
  | (mangaId, action, details) :: rest =>
      e <- MangaTracker.addToHistory mangaId action details ;;
      es <- recordAll rest ;;
      ret (e :: es)
  end.

(** ** Search, as the specification words it *)

Section Selected.

Variable toLowerCase : string -> string.

(** [s] contains [q], case-insensitively. *)
Definition containsCI (s q : string) : Prop :=
  includes (toLowerCase s) (toLowerCase q) = true.

(** A filter on a string field is asked for when it is there and not
    empty; the field then has to be that string. *)
Definition askedFor (wanted : option string) (v : string) : Prop :=
  match wanted with
  | Some s => s <> "" -> v = s
  | None => True
  end.

(** A tag filter is asked for when it is there and not empty; some tag
    of the filter set then has to be a tag of the title. *)
Definition askedTags (wanted : option (list string)) (tags : list string)
  : Prop :=
  match wanted with
  | Some l => l <> [] -> Exists (fun tag => tag ∈ tags) l
  | None => True
  end.

(** The title matches the text in its name, its author or some tag, has
    the status and the kind asked for, and passes the tag filter. *)
Definition selected (query : string) (filters : MangaTracker.Filters)
                    (m : Manga.t) : Prop :=
  (containsCI (Manga.title m) query \/
   containsCI (Manga.author m) query \/
   Exists (fun tag => containsCI tag query) (Manga.tags m)) /\
  askedFor (MangaTracker.f_status filters) (Manga.status m) /\
  askedFor (MangaTracker.f_type filters) (Manga.type m) /\
  askedTags (MangaTracker.f_tags filters) (Manga.tags m).

#[global] Instance askedFor_dec wanted v : Decision (askedFor wanted v).
Proof. destruct wanted; apply _. Defined.

#[global] Instance askedTags_dec wanted tags : Decision (askedTags wanted tags).
Proof. destruct wanted; apply _. Defined.

#[global] Instance selected_dec query filters m :
  Decision (selected query filters m).
Proof. unfold selected, containsCI. apply _. Defined.

End Selected.

(** Two titles named "Sword Art", the first being read, the second
    completed. *)
Definition swordArt (status : string) : MangaData.t :=
  MangaData.mk "Sword Art" None (Some status) None None None None None None
               None None None None.

Definition swordArtWorld : World :=
  ((MangaTracker.addManga (swordArt "reading") ;;;
    MangaTracker.addManga (swordArt "completed"))
     (freshWorld 1000 1 "r")).2.

(** ** Statistics, as the specification words them *)

(** What a session lasted, when it has an end. *)
Definition duration (s : Session.t) : Z :=
  match Session.endTime s with
  | Some e => (e - Session.startTime s)%Z
  | None => 0%Z
  end.

Definition sumDurations (l : list Session.t) : Z :=
  foldr (fun s acc => (duration s + acc)%Z) 0%Z l.

(** The closed sessions of the store. *)
Definition closedSessions (d : Data) : list Session.t :=
  filter (fun s => Session.active s = false) (readingSessions d).

Definition zeroStatistics : MangaTracker.Statistics :=
  MangaTracker.mkStatistics 0 0 0 0 0 0 0 0 0 0 0 0.

(** A calendar on universal time in which a month is thirty days: enough
    to run [getStatistics]. *)
Definition msPerDay : Z := 86400000.
Definition utcDay (t : isoTime) : string := pretty (t / msPerDay)%Z.
Definition sevenDaysBefore (t : isoTime) : isoTime := (t - 7 * msPerDay)%Z.
Definition thirtyDaysBefore (t : isoTime) : isoTime := (t - 30 * msPerDay)%Z.

(** One session, started at 00:01:30 and ended at 00:03:00. *)
Definition ninetySecondsWorld : World :=
  ((session <- MangaTracker.startReadingSession None ;;
    MangaTracker.endReadingSession (Session.id session) (Some 1%Z))
     (freshWorld 0 90000 "r")).2.

(** ** What the end of a session leaves *)

(** The object [endReadingSession] leaves in the place of [session]. *)
Definition ended (session : Session.t) (t : isoTime) (chaptersRead : Z)
  : Session.t :=
  {| Session.id := Session.id session;
     Session.mangaId := Session.mangaId session;
     Session.startTime := Session.startTime session;
     Session.endTime := Some t;
     Session.chaptersRead := chaptersRead;
     Session.active := false |}.

(** The title [updateMangaProgress] leaves in the place of [manga_]: read
    [lr] for the last time, updated at [ua]. *)
Definition advanced (manga_ : Manga.t) (chaptersRead : Z) (lr ua : isoTime)
  : Manga.t :=
  Manga.spread
    (Manga.spread manga_
       (Manga.and
          (Manga.only Manga.FcurrentChapter
                      (addNum (Manga.currentChapter manga_) chaptersRead))
          Manga.FlastRead (Some lr)))
    (Manga.only Manga.FupdatedAt ua).

(** ** The timer and the store, driven by the user *)

(** What reaches the store through the controller: the timer button, and
    the operations on titles, bookmarks and history. The controller never
    calls [startReadingSession] or [endReadingSession] but from the timer. *)
Inductive event :=
| ToggleTimer (input : UIController.answer)
| AddManga (mangaData : MangaData.t)
| UpdateManga (id : string) (updates : Manga.updates)
| DeleteManga (id : string)
| AddBookmark (mangaId : string) (chapterNumber : Z) (note : option string)
| RemoveBookmark (id : string)
| AddToHistory (mangaId action : string) (details : list (string * detail)).

(** One event, from the value of [activeTimer] to its next value. *)
Definition handle (e : event) (activeTimer : option Session.t)
  : M (option Session.t) :=
  match e with
  | ToggleTimer input => UIController.toggleTimer input activeTimer
  | AddManga mangaData =>
      MangaTracker.addManga mangaData ;;; ret activeTimer
  | UpdateManga id updates =>
      MangaTracker.updateManga id updates ;;; ret activeTimer
  | DeleteManga id =>
      MangaTracker.deleteManga id ;;; ret activeTimer
  | AddBookmark mangaId chapterNumber note =>
      MangaTracker.addBookmark mangaId chapterNumber note ;;; ret activeTimer
  | RemoveBookmark id =>
      MangaTracker.removeBookmark id ;;; ret activeTimer
  | AddToHistory mangaId action details =>
      MangaTracker.addToHistory mangaId action details ;;; ret activeTimer
  end.

Fixpoint handleAll (es : list event) (activeTimer : option Session.t)
  : M (option Session.t) :=
  match es with
  | [] => ret activeTimer
  | e :: es' =>
      activeTimer' <- handle e activeTimer ;;
      handleAll es' activeTimer'
  end.

Definition activeSessions (d : Data) : list Session.t :=
  filter (fun s => Session.active s = true) (readingSessions d).

Definition atMostOneActive (d : Data) : Prop :=
  length (activeSessions d) <= 1.

Definition sessionIds (d : Data) : list string :=
  Session.id <$> readingSessions d.

(** The id the next [generateId] returns. *)
Definition nextId (w : World) : string := (MangaTracker.generateId w).1.

(** Along the events, each session the timer starts gets an id that no
    session of the store has. *)
Fixpoint sessionIdsFresh (es : list event) (activeTimer : option Session.t)
                         (w : World) : Prop :=
  match es with
  | [] => True
  | e :: es' =>
      match e, activeTimer with
      | ToggleTimer _, None => nextId w ∉ sessionIds (data w)
      | _, _ => True
      end /\
      sessionIdsFresh es' (handle e activeTimer w).1 (handle e activeTimer w).2
  end.

(** A title, and a session on it. *)
Definition oneSessionWorld : World :=
  ((m <- MangaTracker.addManga (MangaData.named "Berserk") ;;
    MangaTracker.startReadingSession (Some (Manga.id m)))
     (freshWorld 1000 1 "r")).2.

(** Two titles created, the second then given the id of the first by
    [updateManga]. *)
Definition twoTitlesOneId : World :=
  ((MangaTracker.addManga (MangaData.named "Berserk") ;;;
    MangaTracker.addManga (MangaData.named "Vagabond") ;;;
    MangaTracker.updateManga "rwr" (Manga.only Manga.Fid "rsr"))
     (freshWorld 1000 1 "r")).2.

(** What the controller's [activeTimer] has to do with the sessions of the
    store: the ids of the sessions are pairwise distinct; when the timer
    holds nothing no session is active, and when it holds a session, that
    session is in the store and no other one is active. *)
Definition timerInv (activeTimer : option Session.t) (d : Data) : Prop :=
  NoDup (sessionIds d) /\
  match activeTimer with
  | None => activeSessions d = []
  | Some a =>
      a ∈ readingSessions d /\
      forall s, s ∈ readingSessions d -> Session.active s = true -> s = a
  end.

(** ** The operations of the store, as one type *)

(** A call of one of the methods of [MangaTracker] that write. *)
Inductive operation :=
| OpAddManga (mangaData : MangaData.t)
| OpUpdateManga (id : string) (updates : Manga.updates)
| OpDeleteManga (id : string)
| OpStartReadingSession (mangaId : option string)
| OpEndReadingSession (sessionId : string) (chaptersRead : option Z)
| OpAddBookmark (mangaId : string) (chapterNumber : Z) (note : option string)
| OpRemoveBookmark (id : string)
| OpAddToHistory (mangaId action : string) (details : list (string * detail)).

(** The call, its result dropped. *)
Definition perform (op : operation) : M unit :=
  match op with
  | OpAddManga mangaData => MangaTracker.addManga mangaData ;;; ret tt
  | OpUpdateManga id updates => MangaTracker.updateManga id updates ;;; ret tt
  | OpDeleteManga id => MangaTracker.deleteManga id ;;; ret tt
  | OpStartReadingSession mangaId =>
      MangaTracker.startReadingSession mangaId ;;; ret tt
  | OpEndReadingSession sessionId chaptersRead =>
      MangaTracker.endReadingSession sessionId chaptersRead ;;; ret tt
  | OpAddBookmark mangaId chapterNumber note =>
      MangaTracker.addBookmark mangaId chapterNumber note ;;; ret tt
  | OpRemoveBookmark id => MangaTracker.removeBookmark id ;;; ret tt
  | OpAddToHistory mangaId action details =>
      MangaTracker.addToHistory mangaId action details ;;; ret tt
  end.

Fixpoint performAll (ops : list operation) : M unit :=
  match ops with
  | [] => ret tt
  | op :: ops' => perform op ;;; performAll ops'
  end.

(** The world with another fate for the writes to [localStorage]. *)
Definition withSetItemOk (ok : nat -> bool) (w : World) : World :=
  mkWorld (data w) (stored w) ok (writes w)
          (clock w) (clockReads w) (random w) (randomDraws w).

(** The storage holds the document that is in memory. *)
Definition inSync (w : World) : Prop := stored w = Some (data w).

(** Two worlds that differ in their storage at most. *)
Definition sameButStorage (w1 w2 : World) : Prop :=
  data w1 = data w2 /\
  clock w1 = clock w2 /\ clockReads w1 = clockReads w2 /\
  random w1 = random w2 /\ randomDraws w1 = randomDraws w2.

(** A computation that does not look at the storage. *)
Definition blind {A} (c : M A) : Prop :=
  forall w1 w2, sameButStorage w1 w2 ->
                (c w1).1 = (c w2).1 /\ sameButStorage (c w1).2 (c w2).2.

(** Every write to the storage of the world succeeds. *)
Definition allOk (w : World) : Prop := forall k, setItemOk w k = true.

(** Every write to the storage of the world fails. *)
Definition noneOk (w : World) : Prop := forall k, setItemOk w k = false.

(** When the writes succeed they go on succeeding, and the computation
    keeps the storage in step with the memory if it was. *)
Definition syncs {A} (c : M A) : Prop :=
  forall w, allOk w -> allOk (c w).2 /\ (inSync w -> inSync (c w).2).

(** When the writes fail they go on failing, and the computation leaves
    the storage as it is. *)
Definition quiet {A} (c : M A) : Prop :=
  forall w, noneOk w -> noneOk (c w).2 /\ stored (c w).2 = stored w.

(** Some operations on a fresh tracker: a title, a session on it, and
    one call that does not find what it names. *)
Definition someOperations : list operation :=
  [OpAddManga (MangaData.named "Berserk");
   OpStartReadingSession (Some "rsr");
   OpEndReadingSession "rwr" (Some 2%Z);
   OpDeleteManga "none";
   OpAddBookmark "rsr" 7 None;
   OpAddToHistory "rsr" "read" []].

(** ** The collections an operation leaves alone *)

Definition besidesManga (d : Data) :=
  (readingSessions d, bookmarks d, history d, tags d, settings d).

Definition besidesSessions (d : Data) :=
  (manga d, bookmarks d, history d, tags d, settings d).

Definition besidesMangaAndSessions (d : Data) :=
  (bookmarks d, history d, tags d, settings d).

Definition besidesBookmarks (d : Data) :=
  (manga d, readingSessions d, history d, tags d, settings d).

Definition besidesHistory (d : Data) :=
  (manga d, readingSessions d, bookmarks d, tags d, settings d).

(** ** Orders of the lists of titles *)

(** The number by which [sortManga] orders, largest first, for the three
    sort keys that are numbers. *)
Definition sortKey (sortBy : string) : option (Manga.t -> Z) :=
  if String.eqb sortBy "lastRead" then Some UIController.lastReadDate
  else if String.eqb sortBy "rating" then Some (fun m => orNum (Manga.rating m) 0)
  else if String.eqb sortBy "createdAt" then Some Manga.createdAt
  else None.

(** The values of [sortBy] that [sortManga] knows. *)
Definition knownSortBy : list string :=
  ["title"; "lastRead"; "progress"; "rating"; "createdAt"].

(** Largest first by [key]. *)
Definition descending {A} (key : A -> Z) : relation A :=
  fun a b => (key b <= key a)%Z.

(** Three titles, created one after the other. *)
Definition threeTitlesWorld : World :=
  (performAll [OpAddManga (MangaData.named "Berserk");
               OpAddManga (MangaData.named "Vagabond");
               OpAddManga (MangaData.named "Monster")]
              (freshWorld 1000 1 "r")).2.


(** ** Titles at given chapters *)

(** Six titles at chapters 3, 9, 1, 7, 5 and 4. *)
Definition atChapter (s : string) (n : Z) : MangaData.t :=
  MangaData.mk s None None (Some n) None None None None None None None None
               None.

Definition sixTitlesWorld : World :=
  (performAll [OpAddManga (atChapter "Berserk" 3);
               OpAddManga (atChapter "Vagabond" 9);
               OpAddManga (atChapter "Monster" 1);
               OpAddManga (atChapter "Pluto" 7);
               OpAddManga (atChapter "Blame" 5);
               OpAddManga (atChapter "Dorohedoro" 4)]
              (freshWorld 1000 1 "r")).2.

(** ** Statistics by status *)

(** The five statuses [getStatistics] counts. *)
Definition countedStatuses : list string :=
  ["reading"; "completed"; "on-hold"; "dropped"; "plan-to-read"].

(** ** What a search lets through *)

(** The title passes the status, kind and tag filters asked for and, when
    there is a text, matches it in its name, its author or some tag. *)
Definition passes (toLowerCase : string -> string) (query : string)
                  (filters : MangaTracker.Filters) (m : Manga.t) : Prop :=
  (query <> "" ->
   containsCI toLowerCase (Manga.title m) query \/
   containsCI toLowerCase (Manga.author m) query \/
   Exists (fun tag => containsCI toLowerCase tag query) (Manga.tags m)) /\
  askedFor (MangaTracker.f_status filters) (Manga.status m) /\
  askedFor (MangaTracker.f_type filters) (Manga.type m) /\
  askedTags (MangaTracker.f_tags filters) (Manga.tags m).

#[global] Instance passes_dec toLowerCase query filters m :
  Decision (passes toLowerCase query filters m).
Proof. unfold passes, containsCI. apply _. Defined.

(** The title passes the filters, whatever it is called. *)
Definition passesFilters (filters : MangaTracker.Filters) (m : Manga.t) : Prop :=
  askedFor (MangaTracker.f_status filters) (Manga.status m) /\
  askedFor (MangaTracker.f_type filters) (Manga.type m) /\
  askedTags (MangaTracker.f_tags filters) (Manga.tags m).

#[global] Instance passesFilters_dec filters m : Decision (passesFilters filters m).
Proof. unfold passesFilters. apply _. Defined.

(** ** Stores on which the end of a session advances less than asked *)

(** One title, then two sessions, the first tied to no title and the
    second to the title, all made in the same millisecond with the same
    random draw: the three ids are equal. *)
Definition twoSessionsOneId : World :=
  ((m <- MangaTracker.addManga (MangaData.named "Berserk") ;;
    MangaTracker.startReadingSession None ;;;
    MangaTracker.startReadingSession (Some (Manga.id m)))
     (freshWorld 1000 0 "r")).2.

(** One title at [chapter], and one session on it. *)
Definition longRunWorld (chapter : Z) : World :=
  ((m <- MangaTracker.addManga (atChapter "Berserk" chapter) ;;
    MangaTracker.startReadingSession (Some (Manga.id m)))
     (freshWorld 1000 1 "r")).2.

(** One title, given the empty id by [updateManga], and one session on
    it. *)
Definition emptyIdWorld : World :=
  ((m <- MangaTracker.addManga (MangaData.named "Berserk") ;;
    MangaTracker.updateManga (Manga.id m) (Manga.only Manga.Fid "") ;;;
    MangaTracker.startReadingSession (Some ""))
     (freshWorld 1000 1 "r")).2.

(** * Properties *)

(** ** Running the operations *)

Ltac run :=
  unfold MangaTracker.addManga, MangaTracker.updateManga,
    MangaTracker.deleteManga, MangaTracker.getManga,
    MangaTracker.getAllManga, MangaTracker.startReadingSession,
    MangaTracker.getActiveSession, MangaTracker.addToHistory,
    MangaTracker.addBookmark, MangaTracker.removeBookmark,
    MangaTracker.generateId, MangaTracker.saveData,
    bind, ret, getData, setData, now, mathRandom36; cbn.

Section Lists.

Context {A : Type} (P : A -> Prop) `{!forall x, Decision (P x)}.

(** After the first match is spliced out, a search finds nothing when
    no other element matched. *)
Lemma list_find_delete_unique (l : list A) (i : nat) (x : A) :
  list_find P l = Some (i, x) ->
  (forall j y, l !! j = Some y -> P y -> j = i) ->
  list_find P (delete i l) = None.
Proof.
  intros _ Huniq. apply list_find_None, Forall_lookup. intros j y Hj HPy.
  destruct (decide (j < i)) as [Hlt|Hge].
  - rewrite list_lookup_delete_lt in Hj by done.
    specialize (Huniq j y Hj HPy). lia.
  - rewrite list_lookup_delete_ge in Hj by lia.
    specialize (Huniq (S j) y Hj HPy). lia.
Qed.

(** Replacing the first match by an element that matches too leaves it
    the first match. *)
Lemma list_find_insert_same (l : list A) (i : nat) (x y : A) :
  list_find P l = Some (i, x) -> P y ->
  list_find P (<[i := y]> l) = Some (i, y).
Proof.
  intros (Hi & HPx & Hleast)%list_find_Some HPy.
  apply list_find_Some. split_and!.
  - apply list_lookup_insert_eq. by eapply lookup_lt_Some.
  - done.
  - intros j z Hj Hlt. rewrite list_lookup_insert_ne in Hj by lia. eauto.
Qed.

End Lists.

(** ** C10, C8: deleteManga *)

(** C10. [deleteManga] touches the titles only: the sessions, bookmarks,
    history, tag catalogue and settings of the document are what they were,
    so whatever in them names the deleted title stays (no cascade). *)
Theorem deleteManga_frame (id : string) (w : World) :
  let d' := data (MangaTracker.deleteManga id w).2 in
  readingSessions d' = readingSessions (data w) /\
  bookmarks d' = bookmarks (data w) /\
  history d' = history (data w) /\
  tags d' = tags (data w) /\
  settings d' = settings (data w).
Proof.
  run. destruct (MangaTracker.findManga id (data w)) as [[i m]|]; cbn; auto.
Qed.

(** C8, as stated, fails: where two records carry the id, [deleteManga]
    succeeds and [getManga] still finds a record. *)
Lemma deleteManga_getManga_duplicate :
  let r := MangaTracker.deleteManga "rsr" twoTitlesOneId in
  Manga.title <$> r.1 = Some "Berserk" /\
  Manga.title <$> (MangaTracker.getManga "rsr" r.2).1 = Some "Vagabond".
Proof. vm_compute. done. Qed.

(** C8, amended. [deleteManga id] removes the first record whose id is
    [id] and returns it; when no record has that id it returns [null] and
    the world is as before. After a deletion that succeeded, [getManga id]
    finds nothing provided no other record carried the same id. *)
Theorem deleteManga_spec (id : string) (w : World) :
  (MangaTracker.findManga id (data w) = None ->
   MangaTracker.deleteManga id w = (None, w)) /\
  (forall i m,
     MangaTracker.findManga id (data w) = Some (i, m) ->
     let r := MangaTracker.deleteManga id w in
     r.1 = Some m /\
     Manga.id m = id /\
     manga (data w) !! i = Some m /\
     manga (data r.2) = delete i (manga (data w)) /\
     length (manga (data r.2)) + 1 = length (manga (data w)) /\
     ((forall j m', manga (data w) !! j = Some m' -> Manga.id m' = id -> j = i) ->
      (MangaTracker.getManga id r.2).1 = None)).
Proof.
  split.
  - intros Hnone. run. by rewrite Hnone.
  - intros i m Hfind. pose proof Hfind as (Hi & Hid & _)%list_find_Some.
    run. rewrite Hfind. cbn. split_and!; try done.
    + rewrite length_delete by eauto.
      apply lookup_lt_Some in Hi. lia.
    + intros Huniq. unfold MangaTracker.findManga. cbn.
      by erewrite list_find_delete_unique.
Qed.

Lemma deleteManga_spec_witness :
  let w := (MangaTracker.addManga (MangaData.named "Berserk")
              (freshWorld 1000 1 "r")).2 in
  let r := MangaTracker.deleteManga "rsr" w in
  Manga.title <$> r.1 = Some "Berserk" /\
  (MangaTracker.getManga "rsr" r.2).1 = None.
Proof.
  intros w r.
  destruct (deleteManga_spec "rsr" w) as [_ H].
  destruct (H 0 (MangaTracker.addManga (MangaData.named "Berserk")
                   (freshWorld 1000 1 "r")).1 eq_refl)
    as (Hr & _ & _ & _ & _ & Hget).
  split.
  - subst r. rewrite Hr. reflexivity.
  - apply Hget. intros [|j] m'; [done|]. vm_compute. discriminate.
Defined.

(** ** C3: addToHistory *)

Lemma take_app_take {A} (n : nat) (l k : list A) :
  take n (l ++ take n k) = take n (l ++ k).
Proof.
  rewrite !take_app, take_take. f_equal. f_equal. lia.
Qed.

Lemma addToHistory_history (mangaId action : string)
    (details : list (string * detail)) (w : World) :
  let r := MangaTracker.addToHistory mangaId action details w in
  history (data r.2) = take 100 (r.1 :: history (data w)).
Proof.
  run. case_decide as Hlen; [done|].
  f_equal. symmetry. apply take_ge. cbn in Hlen. lia.
Qed.

Lemma recordAll_cons mangaId action details rest w :
  recordAll ((mangaId, action, details) :: rest) w =
  let r1 := MangaTracker.addToHistory mangaId action details w in
  let r2 := recordAll rest r1.2 in
  (r1.1 :: r2.1, r2.2).
Proof.
  cbn [recordAll]. unfold bind, ret.
  destruct (MangaTracker.addToHistory mangaId action details w) as [e w1].
  cbn [fst snd]. by destruct (recordAll rest w1).
Qed.

(** From a history that respects the cap, the calls leave their entries,
    newest first, in front of the old ones, cut at 100. *)
Lemma recordAll_history_capped calls : forall w,
  length (history (data w)) <= 100 ->
  let r := recordAll calls w in
  length r.1 = length calls /\
  history (data r.2) = take 100 (reverse r.1 ++ history (data w)).
Proof.
  induction calls as [|[[mangaId action] details] rest IH]; intros w Hcap.
  - cbn. split; [done|]. symmetry. by apply take_ge.
  - rewrite recordAll_cons.
    pose proof (addToHistory_history mangaId action details w) as Hone.
    destruct (MangaTracker.addToHistory mangaId action details w) as [e w1].
    cbn [fst snd] in *.
    assert (length (history (data w1)) <= 100) as Hcap1.
    { rewrite Hone, length_take. lia. }
    destruct (IH w1 Hcap1) as [Hlen Hhist]. cbn [fst snd length].
    split; [by rewrite Hlen|].
    rewrite Hhist, Hone, reverse_cons, <- app_assoc. apply take_app_take.
Qed.

(** The same from any history, as soon as there is one call. *)
Lemma recordAll_history calls w :
  calls <> [] ->
  let r := recordAll calls w in
  length r.1 = length calls /\
  history (data r.2) = take 100 (reverse r.1 ++ history (data w)).
Proof.
  destruct calls as [|[[mangaId action] details] rest]; [done|]. intros _.
  rewrite recordAll_cons.
  pose proof (addToHistory_history mangaId action details w) as Hone.
  destruct (MangaTracker.addToHistory mangaId action details w) as [e w1].
  cbn [fst snd] in *.
  assert (length (history (data w1)) <= 100) as Hcap1.
  { rewrite Hone, length_take. lia. }
  destruct (recordAll_history_capped rest w1 Hcap1) as [Hlen Hhist].
  cbn [fst snd length]. split; [by rewrite Hlen|].
  rewrite Hhist, Hone, reverse_cons, <- app_assoc. apply take_app_take.
Qed.

(** C3. Whatever the history held, [addToHistory] puts the new entry at the
    head and keeps the first 100 entries at most; 101 calls leave exactly
    100 entries, the newest first: the entries of the last 100 calls in the
    reverse of the order of the calls. *)
Theorem addToHistory_cap :
  (forall mangaId action details w,
     let r := MangaTracker.addToHistory mangaId action details w in
     history (data r.2) = take 100 (r.1 :: history (data w)) /\
     head (history (data r.2)) = Some r.1 /\
     length (history (data r.2)) <= 100 /\
     HistoryEntry.mangaId r.1 = mangaId /\
     HistoryEntry.action r.1 = action /\
     HistoryEntry.details r.1 = details) /\
  (forall calls w,
     length calls = 101 ->
     let r := recordAll calls w in
     length r.1 = 101 /\
     length (history (data r.2)) = 100 /\
     history (data r.2) = take 100 (reverse r.1) /\
     history (data r.2) = reverse (drop 1 r.1)).
Proof.
  split.
  - intros mangaId action details w r.
    pose proof (addToHistory_history mangaId action details w) as Hone.
    fold r in Hone. rewrite Hone. split_and!; try done.
    rewrite length_take. lia.
  - intros calls w H101.
    assert (calls <> []) as Hne by (intros ->; discriminate).
    destruct (recordAll_history calls w Hne) as [Hlen Hhist].
    destruct (recordAll calls w) as [es w']. cbn [fst snd] in *.
    rewrite H101 in Hlen.
    assert (take 100 (reverse es ++ history (data w)) = take 100 (reverse es))
      as Htake.
    { apply take_app_le. rewrite length_reverse. lia. }
    rewrite Hhist, Htake. split_and!; try done.
    + rewrite length_take, length_reverse. lia.
    + destruct es as [|e es]; [done|]. cbn [drop]. rewrite drop_0.
      rewrite reverse_cons. apply take_app_length'.
      rewrite length_reverse. cbn in Hlen. lia.
Qed.

Lemma addToHistory_cap_witness :
  let r := recordAll (replicate 101 ("rsr", "read", [])) (freshWorld 1000 1 "r") in
  length (replicate 101 ("rsr", "read", @nil (string * detail))) = 101 /\
  length (history (data r.2)) = 100.
Proof.
  split; [reflexivity|].
  destruct addToHistory_cap as [_ H].
  apply (H (replicate 101 ("rsr", "read", [])) (freshWorld 1000 1 "r")).
  reflexivity.
Defined.

(** ** C5: searchManga *)

Lemma truthyStr_true (s : string) : truthyStr s = true <-> s <> "".
Proof.
  unfold truthyStr. rewrite negb_true_iff.
  destruct (String.eqb_spec s ""); naive_solver.
Qed.

Lemma truthyStr_false (s : string) : truthyStr s = false <-> s = "".
Proof.
  unfold truthyStr. rewrite negb_false_iff. apply String.eqb_eq.
Qed.

Lemma existsb_Exists {A} (f : A -> bool) (l : list A) :
  existsb f l = true <-> Exists (fun x => f x = true) l.
Proof.
  induction l as [|x l IH]; cbn.
  - split; [done|]. by intros ?%Exists_nil.
  - rewrite orb_true_iff, Exists_cons, IH. done.
Qed.

Lemma textMatch_spec toLowerCase query m :
  MangaTracker.textMatch toLowerCase (toLowerCase query) m = true <->
  containsCI toLowerCase (Manga.title m) query \/
  containsCI toLowerCase (Manga.author m) query \/
  Exists (fun tag => containsCI toLowerCase tag query) (Manga.tags m).
Proof.
  unfold MangaTracker.textMatch, containsCI.
  rewrite !orb_true_iff, existsb_Exists. tauto.
Qed.

Lemma tagMatch_spec wanted m :
  MangaTracker.tagMatch wanted m = true <->
  Exists (fun tag => tag ∈ Manga.tags m) wanted.
Proof.
  unfold MangaTracker.tagMatch. rewrite existsb_Exists, !Exists_exists.
  split; intros (tag & Hin & Htag); exists tag; split; try done.
  - by apply bool_decide_eq_true in Htag.
  - by apply bool_decide_eq_true.
Qed.

Lemma filter_all {A} (P : A -> Prop) `{!forall x, Decision (P x)} (l : list A) :
  (forall x, P x) -> filter P l = l.
Proof.
  intros HP. induction l as [|x l IH]; [done|].
  by rewrite filter_cons_True, IH.
Qed.

Lemma filter_askedFor (wanted : option string) (get : Manga.t -> string)
    (l : list Manga.t) :
  match wanted with
  | Some s => if truthyStr s then filter (fun m => get m = s) l else l
  | None => l
  end = filter (fun m => askedFor wanted (get m)) l.
Proof.
  destruct wanted as [s|]; cbn; [|by rewrite filter_all].
  destruct (truthyStr s) eqn:Hs.
  - apply truthyStr_true in Hs. apply list_filter_iff. naive_solver.
  - apply truthyStr_false in Hs. subst s.
    symmetry. by apply filter_all.
Qed.

Lemma filter_askedTags (wanted : option (list string)) (l : list Manga.t) :
  match wanted with
  | Some ts => if decide (0 < length ts)
               then filter (fun m => MangaTracker.tagMatch ts m = true) l
               else l
  | None => l
  end = filter (fun m => askedTags wanted (Manga.tags m)) l.
Proof.
  destruct wanted as [ts|]; cbn; [|by rewrite filter_all].
  case_decide as Hlen.
  - apply list_filter_iff. intros m. rewrite tagMatch_spec.
    split; [done|]. intros H. apply H. by destruct ts; [cbn in Hlen; lia|].
  - destruct ts; [|cbn in Hlen; lia].
    symmetry. by apply filter_all.
Qed.

(** C5. For a text that is not empty, [searchManga] returns, in the order
    of the store, exactly the titles that contain the text
    case-insensitively in the name, the author or a tag and that pass the
    status, kind and tag-set filters asked for; the world is left as it
    was. Searching "sword" among the titles being read, in a store with
    one "Sword Art" being read and one completed, gives the first alone. *)
Theorem searchManga_spec :
  (forall (toLowerCase : string -> string) query filters w,
     query <> "" ->
     let r := MangaTracker.searchManga toLowerCase query filters w in
     r.2 = w /\
     r.1 = filter (selected toLowerCase query filters) (manga (data w)) /\
     (forall m, m ∈ r.1 <->
                m ∈ manga (data w) /\ selected toLowerCase query filters m)) /\
  (let r := MangaTracker.searchManga asciiLower "sword"
              (MangaTracker.mkFilters (Some "reading") None None) swordArtWorld in
   (Manga.title <$> manga (data swordArtWorld)) = ["Sword Art"; "Sword Art"] /\
   (Manga.status <$> manga (data swordArtWorld)) = ["reading"; "completed"] /\
   r.1 = take 1 (manga (data swordArtWorld))).
Proof.
  split; [|vm_compute; done].
  intros toLowerCase query filters w Hq.
  assert (MangaTracker.searchManga toLowerCase query filters w =
          (filter (selected toLowerCase query filters) (manga (data w)), w))
    as ->.
  { unfold MangaTracker.searchManga, bind, ret, getData.
    apply truthyStr_true in Hq. rewrite Hq. f_equal.
    rewrite filter_askedTags, !filter_askedFor, !list_filter_filter.
    apply list_filter_iff. intros m. unfold selected.
    rewrite textMatch_spec. tauto. }
  cbn. split_and!; try done.
  intros m. rewrite list_elem_of_filter. tauto.
Qed.

Lemma searchManga_spec_witness :
  "sword" <> "" /\
  (MangaTracker.searchManga asciiLower "sword"
     (MangaTracker.mkFilters (Some "reading") None None) swordArtWorld).1
  = filter (selected asciiLower "sword"
              (MangaTracker.mkFilters (Some "reading") None None))
           (manga (data swordArtWorld)).
Proof.
  split; [discriminate|].
  destruct searchManga_spec as [H _].
  apply (H asciiLower "sword"
           (MangaTracker.mkFilters (Some "reading") None None) swordArtWorld).
  discriminate.
Defined.

(** ** C6: getStatistics *)

Lemma totalTime_sumDurations (l : list Session.t) :
  MangaTracker.totalTime l = sumDurations l.
Proof.
  unfold MangaTracker.totalTime.
  assert (forall a,
            foldl (fun sum session =>
                     match Session.endTime session with
                     | Some e => (sum + (e - Session.startTime session))%Z
                     | None => sum
                     end) a l = (a + sumDurations l)%Z) as H.
  { induction l as [|s l IH]; intros a; [cbn; lia|].
    cbn [foldl]. rewrite IH.
    change (sumDurations (s :: l)) with (duration s + sumDurations l)%Z.
    unfold duration. destruct (Session.endTime s); lia. }
  rewrite H. lia.
Qed.

(** [roundDiv a b] is the integer nearest to [a / b], the upper one of two. *)
Lemma roundDiv_nearest (a b : Z) :
  (0 < b)%Z ->
  (- b < 2 * (roundDiv a b * b - a) <= b)%Z.
Proof.
  intros Hb. unfold roundDiv.
  pose proof (Z.div_mod (2 * a + b) (2 * b) ltac:(lia)) as Hdm.
  pose proof (Z.mod_pos_bound (2 * a + b) (2 * b) ltac:(lia)) as Hm.
  nia.
Qed.

(** C6, as stated, fails: a single closed session of ninety seconds has the
    average 2, which is neither a minute and a half nor its integer part. *)
Lemma averageSessionTime_not_quotient :
  let stats := (MangaTracker.getStatistics utcDay sevenDaysBefore
                  thirtyDaysBefore ninetySecondsWorld).1 in
  let closed := closedSessions (data ninetySecondsWorld) in
  length closed = 1 /\
  sumDurations closed = 90000%Z /\
  MangaTracker.averageSessionTime stats = 2%Z /\
  (MangaTracker.averageSessionTime stats * (60000 * Z.of_nat (length closed))
   <> sumDurations closed)%Z /\
  (MangaTracker.averageSessionTime stats
   <> sumDurations closed / (60000 * Z.of_nat (length closed)))%Z.
Proof. vm_compute. split_and!; done. Qed.

(** C6, amended. With no title and no session every figure is zero, the
    average session time included. In general the average session time is
    0 when no session is closed, and otherwise the sum of the durations of
    the closed sessions divided by their number and by 60000, rounded to
    the nearest whole minute (a half goes up). *)
Theorem getStatistics_spec (toDateString : isoTime -> string)
    (weekBefore monthBefore : isoTime -> isoTime) (w : World) :
  let r := MangaTracker.getStatistics toDateString weekBefore monthBefore w in
  let closed := closedSessions (data w) in
  let minutes := MangaTracker.averageSessionTime r.1 in
  let n := Z.of_nat (length closed) in
  data r.2 = data w /\
  (manga (data w) = [] -> readingSessions (data w) = [] ->
   r.1 = zeroStatistics) /\
  MangaTracker.totalReadingSessions r.1 = n /\
  (closed = [] -> minutes = 0%Z) /\
  (closed <> [] ->
   (- (60000 * n) < 2 * (minutes * (60000 * n) - sumDurations closed)
    <= 60000 * n)%Z).
Proof.
  unfold MangaTracker.getStatistics, MangaTracker.getDailyProgress,
    MangaTracker.getWeeklyProgress, MangaTracker.getMonthlyProgress,
    bind, ret, getData, now. cbn. fold (closedSessions (data w)).
  split_and!.
  - done.
  - intros Hm Hs. unfold closedSessions. rewrite Hm, Hs. reflexivity.
  - done.
  - intros ->. reflexivity.
  - intros Hne. unfold MangaTracker.calculateAverageSessionTime.
    case_decide as Hlen.
    { by apply nil_length_inv in Hlen. }
    rewrite totalTime_sumDurations.
    replace (Z.of_nat (length (closedSessions (data w))) * 1000 * 60)%Z
      with (60000 * Z.of_nat (length (closedSessions (data w))))%Z by lia.
    apply roundDiv_nearest. lia.
Qed.

Lemma getStatistics_spec_witness :
  (MangaTracker.getStatistics utcDay sevenDaysBefore thirtyDaysBefore
     (freshWorld 1000 1 "r")).1 = zeroStatistics /\
  (- (60000 * 1) <
   2 * (MangaTracker.averageSessionTime
          (MangaTracker.getStatistics utcDay sevenDaysBefore thirtyDaysBefore
             ninetySecondsWorld).1 * (60000 * 1) - 90000) <= 60000 * 1)%Z.
Proof.
  split.
  - apply (getStatistics_spec utcDay sevenDaysBefore thirtyDaysBefore
             (freshWorld 1000 1 "r")); reflexivity.
  - apply (getStatistics_spec utcDay sevenDaysBefore thirtyDaysBefore
             ninetySecondsWorld). vm_compute. discriminate.
Defined.

(** ** C7: addManga *)

(** C7, as stated, fails on the id and on the two time stamps: with the
    clock on the same millisecond and the same random draw, the second
    title gets the id of the first; and when the clock ticks between the
    two readings, [createdAt] and [updatedAt] differ. *)
Lemma addManga_id_collision :
  (let r1 := MangaTracker.addManga (MangaData.named "Berserk")
               (freshWorld 1000 0 "r") in
   let r2 := MangaTracker.addManga (MangaData.named "Vagabond") r1.2 in
   Manga.id r2.1 ∈ (Manga.id <$> manga (data r1.2)) /\
   ~ NoDup (Manga.id <$> manga (data r2.2))) /\
  (let r := MangaTracker.addManga (MangaData.named "Berserk")
              (freshWorld 1000 1 "r") in
   Manga.createdAt r.1 <> Manga.updatedAt r.1).
Proof.
  split; [|vm_compute; done].
  vm_compute. split; [constructor|].
  intros Hnd. apply NoDup_cons_1_1 in Hnd. apply Hnd. constructor.
Qed.

(** C7, amended. [addManga] gives the new record the id made of the clock
    reading in base 36 followed by the random draw; it is not compared
    with the ids in the store, and the ids of the store stay pairwise
    distinct when it happens to be new. Kind, status, progress, tags and
    start date get their defaults when they are not supplied, and keep a
    supplied value (a supplied empty kind or status counts as missing);
    [createdAt] and [updatedAt] are two successive readings of the clock
    taken during the call, equal unless the clock advances between them.
    The record is appended to the titles and returned, whatever the names
    already in the store. *)
Theorem addManga_spec (mangaData : MangaData.t) (w : World) :
  let r := MangaTracker.addManga mangaData w in
  let m := r.1 in
  let ids := Manga.id <$> manga (data w) in
  let k := clockReads w in
  manga (data r.2) = manga (data w) ++ [m] /\
  Manga.id m = toString36 (clock w k) +:+ random w (randomDraws w) /\
  (Manga.id m ∉ ids -> NoDup ids -> NoDup (Manga.id <$> manga (data r.2))) /\
  Manga.title m = MangaData.title mangaData /\
  (MangaData.type mangaData = None -> Manga.type m = "manga") /\
  (MangaData.status mangaData = None -> Manga.status m = "reading") /\
  (MangaData.currentChapter mangaData = None -> Manga.currentChapter m = 0%Z) /\
  (MangaData.tags mangaData = None -> Manga.tags m = []) /\
  (MangaData.startDate mangaData = None -> Manga.startDate m = clock w (S k)) /\
  (forall s, MangaData.type mangaData = Some s -> s <> "" -> Manga.type m = s) /\
  (forall s, MangaData.status mangaData = Some s -> s <> "" -> Manga.status m = s) /\
  (forall n, MangaData.currentChapter mangaData = Some n ->
             Manga.currentChapter m = n) /\
  (forall l, MangaData.tags mangaData = Some l -> Manga.tags m = l) /\
  (forall t, MangaData.startDate mangaData = Some t -> Manga.startDate m = t) /\
  (exists j, k < j /\ clockReads r.2 = S (S j) /\
             Manga.createdAt m = clock w j /\
             Manga.updatedAt m = clock w (S j) /\
             (clock w j = clock w (S j) -> Manga.createdAt m = Manga.updatedAt m)) /\
  (forall m0, m0 ∈ manga (data w) ->
              Manga.title m0 = MangaData.title mangaData ->
              m0 ∈ manga (data r.2) /\ m ∈ manga (data r.2)).
Proof.
  destruct mangaData as [ti ty st cc tc ra tg no co au sd ed lr].
  unfold MangaTracker.addManga, MangaTracker.generateId, MangaTracker.saveData,
    bind, ret, getData, setData, now, mathRandom36.
  destruct sd as [t|]; cbn.
  all: split_and!; try done.
  all: try (intros; simplify_eq; done).
  all: try (intros Hfresh Hnd; rewrite fmap_app; apply NoDup_app;
            split_and!; [done| |apply NoDup_singleton];
            intros x Hx [->|[]%elem_of_nil]%elem_of_cons; done).
  all: try (intros s [= ->] Hs; unfold orStr;
            by apply truthyStr_true in Hs as ->).
  all: try (intros n [= ->]; unfold orNum, truthyNum;
            destruct (Z.eqb_spec n 0); cbn; congruence).
  all: try (eexists; split_and!; [|done..]; lia).
  all: intros m0 Hm0 _; split; apply elem_of_app;
    [by left|right; by apply list_elem_of_singleton].
Qed.

Lemma addManga_spec_witness :
  let w := (MangaTracker.addManga (MangaData.named "Berserk")
              (freshWorld 1000 1 "r")).2 in
  let r := MangaTracker.addManga (MangaData.named "Vagabond") w in
  NoDup (Manga.id <$> manga (data r.2)) /\ Manga.type r.1 = "manga".
Proof.
  intros w r.
  pose proof (addManga_spec (MangaData.named "Vagabond") w)
    as (_ & _ & Hnd & _ & Hty & _).
  split.
  - apply Hnd.
    + vm_compute. intros [H|[]%elem_of_nil]%elem_of_cons. discriminate.
    + vm_compute. apply NoDup_singleton.
  - apply Hty. reflexivity.
Defined.

(** ** C4: updateManga *)

Lemma get_spread (f : Manga.field) (m : Manga.t) (u : Manga.updates) :
  Manga.get f (Manga.spread m u) = default (Manga.get f m) (u f).
Proof. by destruct f. Qed.

Lemma only_other (f g : Manga.field) (v : Manga.field_type f) :
  f <> g -> Manga.only f v g = None.
Proof. unfold Manga.only. by destruct (decide (f = g)). Qed.

(** The record that [updateManga] puts in the place of [old]. *)
Lemma get_updated (f : Manga.field) (old : Manga.t) (u : Manga.updates)
    (t : isoTime) :
  f <> Manga.FupdatedAt ->
  Manga.get f (Manga.spread (Manga.spread old u) (Manga.only Manga.FupdatedAt t))
  = default (Manga.get f old) (u f).
Proof.
  intros Hf. rewrite get_spread, only_other by done. cbn. apply get_spread.
Qed.

Lemma updateManga_found (id : string) (u : Manga.updates) (w : World)
    (i : nat) (old : Manga.t) :
  MangaTracker.findManga id (data w) = Some (i, old) ->
  let new := Manga.spread (Manga.spread old u)
               (Manga.only Manga.FupdatedAt (clock w (clockReads w))) in
  MangaTracker.updateManga id u w =
  (Some new,
   mkWorld (setManga (<[i := new]> (manga (data w))) (data w))
           (if setItemOk w (writes w)
            then Some (setManga (<[i := new]> (manga (data w))) (data w))
            else stored w)
           (setItemOk w) (S (writes w)) (clock w) (S (clockReads w))
           (random w) (randomDraws w)).
Proof. intros Hfind. run. by rewrite Hfind. Qed.

(** C4, as stated, fails: an update made in the millisecond of the
    previous one leaves [updatedAt] where it was, and an [updatedAt] given
    in the partial fields is not the one the record gets. *)
Lemma updateManga_updatedAt_not_greater :
  let w := (MangaTracker.addManga (MangaData.named "Berserk")
              (freshWorld 1000 0 "r")).2 in
  let before := (MangaTracker.getManga "rsr" w).1 in
  let after :=
    (MangaTracker.getManga "rsr"
       (MangaTracker.updateManga "rsr" (Manga.only Manga.Ftitle "Guts") w).2).1 in
  let after' :=
    (MangaTracker.getManga "rsr"
       (MangaTracker.updateManga "rsr" (Manga.only Manga.FupdatedAt 5%Z) w).2).1 in
  Manga.title <$> after = Some "Guts" /\
  Manga.updatedAt <$> before = Some 1000%Z /\
  Manga.updatedAt <$> after = Some 1000%Z /\
  Manga.updatedAt <$> after' = Some 1000%Z.
Proof. vm_compute. done. Qed.

(** C4, amended. When [id] matches no record [updateManga] returns [null]
    and the world is as before. When it matches, and the partial fields do
    not give the record another id, [getManga id] afterwards yields the
    record returned: each field given, [updatedAt] apart, has the value
    given, the fields not given are as before, and [updatedAt] is the
    clock reading taken by the update, later than before exactly when the
    clock has moved past the previous [updatedAt]. *)
Theorem updateManga_spec (id : string) (u : Manga.updates) (w : World) :
  (MangaTracker.findManga id (data w) = None ->
   MangaTracker.updateManga id u w = (None, w)) /\
  (forall i old,
     MangaTracker.findManga id (data w) = Some (i, old) ->
     (forall id', u Manga.Fid = Some id' -> id' = id) ->
     let r := MangaTracker.updateManga id u w in
     let t := clock w (clockReads w) in
     exists new,
       r.1 = Some new /\
       (MangaTracker.getManga id r.2).1 = Some new /\
       manga (data r.2) = <[i := new]> (manga (data w)) /\
       (forall f v, f <> Manga.FupdatedAt -> u f = Some v -> Manga.get f new = v) /\
       (forall f, f <> Manga.FupdatedAt -> u f = None ->
                  Manga.get f new = Manga.get f old) /\
       Manga.updatedAt new = t /\
       ((Manga.updatedAt old < Manga.updatedAt new)%Z <->
        (Manga.updatedAt old < t)%Z)).
Proof.
  split.
  - intros Hnone. run. by rewrite Hnone.
  - intros i old Hfind Hid.
    rewrite (updateManga_found id u w i old Hfind). cbn zeta.
    set (new := Manga.spread _ _). exists new. cbn [fst snd].
    pose proof Hfind as (Hi & Hold & _)%list_find_Some.
    assert (Manga.id new = id) as Hnew.
    { change (Manga.id new) with (Manga.get Manga.Fid new).
      subst new. rewrite get_updated by done.
      destruct (u Manga.Fid) as [id'|] eqn:Hu; cbn; [by apply Hid|done]. }
    split_and!; try done.
    + run. unfold MangaTracker.findManga. cbn.
      by erewrite list_find_insert_same.
    + intros f v Hf Hu. subst new. by rewrite get_updated, Hu.
    + intros f Hf Hu. subst new. by rewrite get_updated, Hu.
Qed.

Lemma updateManga_spec_witness :
  let w := (MangaTracker.addManga (MangaData.named "Berserk")
              (freshWorld 1000 1 "r")).2 in
  let r := MangaTracker.updateManga "rsr" (Manga.only Manga.Ftitle "Guts") w in
  exists new,
    (MangaTracker.getManga "rsr" r.2).1 = Some new /\
    Manga.title new = "Guts" /\
    (Manga.updatedAt <$> (MangaTracker.getManga "rsr" w).1 = Some 1003%Z) /\
    Manga.updatedAt new = 1004%Z.
Proof.
  intros w r.
  destruct (updateManga_spec "rsr" (Manga.only Manga.Ftitle "Guts") w) as [_ H].
  destruct (H 0 (MangaTracker.addManga (MangaData.named "Berserk")
                   (freshWorld 1000 1 "r")).1 eq_refl)
    as (new & _ & Hget & _ & Hgiven & _ & Hupd & _).
  { intros id'. vm_compute. discriminate. }
  exists new. split_and!; [done| |reflexivity|done].
  apply (Hgiven Manga.Ftitle); [discriminate|reflexivity].
Defined.

(** ** C2, C9: endReadingSession *)

Lemma bind_run {A B} (c : M A) (k : A -> M B) (w : World) :
  bind c k w = k (c w).1 (c w).2.
Proof. unfold bind. by destruct (c w). Qed.

Lemma findManga_id id d i m :
  MangaTracker.findManga id d = Some (i, m) -> Manga.id m = id.
Proof. by intros (_ & ? & _)%list_find_Some. Qed.

Lemma findSession_id id d k s :
  MangaTracker.findSession id d = Some (k, s) -> Session.id s = id.
Proof. by intros (_ & ? & _)%list_find_Some. Qed.

Lemma getManga_run id w :
  (MangaTracker.getManga id w).1 = snd <$> MangaTracker.findManga id (data w).
Proof. reflexivity. Qed.

Lemma updateManga_readingSessions id u w :
  readingSessions (data (MangaTracker.updateManga id u w).2)
  = readingSessions (data w).
Proof.
  run. by destruct (MangaTracker.findManga id (data w)) as [[i m]|].
Qed.

Lemma updateMangaProgress_readingSessions session n w :
  readingSessions (data (MangaTracker.updateMangaProgress session n w).2)
  = readingSessions (data w).
Proof.
  unfold MangaTracker.updateMangaProgress.
  destruct (MangaTracker.progressTarget session n) as [mid|]; [|done].
  rewrite bind_run. cbn [MangaTracker.getManga bind getData ret fst snd].
  destruct (MangaTracker.findManga mid (data w)) as [[i m]|]; [|done].
  cbn [fmap option_fmap option_map snd].
  rewrite !bind_run. cbn [ret fst snd].
  by rewrite updateManga_readingSessions.
Qed.

Lemma progressTarget_bound session mid n :
  Session.mangaId session = Some mid -> mid <> "" -> (0 < n)%Z ->
  MangaTracker.progressTarget session n = Some mid.
Proof.
  intros Hmid Hne%truthyStr_true Hn%Z.ltb_lt.
  unfold MangaTracker.progressTarget. by rewrite Hmid, Hne, Hn.
Qed.

(** The progress block, when the session names a title of the store and
    chapters were read. *)
Lemma updateMangaProgress_bound session mid n w i m :
  Session.mangaId session = Some mid -> mid <> "" -> (0 < n)%Z ->
  MangaTracker.findManga mid (data w) = Some (i, m) ->
  let c := clockReads w in
  let m' := advanced m n (clock w c) (clock w (S c)) in
  let r := MangaTracker.updateMangaProgress session n w in
  manga (data r.2) = <[i := m']> (manga (data w)) /\
  clock r.2 = clock w /\
  clockReads r.2 = S (S c).
Proof.
  intros Hmid Hne Hn Hm c m' r. subst r.
  unfold MangaTracker.updateMangaProgress.
  rewrite (progressTarget_bound session mid n) by done.
  rewrite bind_run. cbn [MangaTracker.getManga bind getData ret fst snd].
  rewrite Hm. cbn [fmap option_fmap option_map snd].
  rewrite !bind_run. cbn [ret fst snd now].
  erewrite updateManga_found; [done|].
  by rewrite (findManga_id _ _ _ _ Hm).
Qed.

(** [endReadingSession] on a session of the store: the session is closed
    where it stands, then the progress block runs. *)
Lemma endReadingSession_run (s : string) (n : option Z) (w : World)
    (k : nat) (session : Session.t) :
  MangaTracker.findSession s (data w) = Some (k, session) ->
  let session' := ended session (clock w (clockReads w)) (default 0%Z n) in
  exists w1,
    MangaTracker.endReadingSession s n w =
    (Some session',
     (MangaTracker.updateMangaProgress session' (default 0%Z n) w1).2) /\
    data w1 = setReadingSessions (<[k := session']> (readingSessions (data w)))
                                 (data w) /\
    clock w1 = clock w /\
    clockReads w1 = S (clockReads w).
Proof.
  intros Hfind session'.
  unfold MangaTracker.endReadingSession.
  rewrite bind_run. cbn [getData fst snd]. rewrite Hfind.
  rewrite !bind_run. cbn [ret fst snd]. eexists. split; [reflexivity|].
  done.
Qed.

(** Whatever the session and its title, the call succeeds and the sessions
    of the store change at the index of the session found only. *)
Lemma endReadingSession_found (s : string) (n : option Z) (w : World)
    (k : nat) (session : Session.t) :
  MangaTracker.findSession s (data w) = Some (k, session) ->
  let session' := ended session (clock w (clockReads w)) (default 0%Z n) in
  let r := MangaTracker.endReadingSession s n w in
  r.1 = Some session' /\
  readingSessions (data r.2) = <[k := session']> (readingSessions (data w)) /\
  MangaTracker.findSession s (data r.2) = Some (k, session').
Proof.
  intros Hfind session' r. subst r.
  destruct (endReadingSession_run s n w k session Hfind)
    as (w1 & -> & Hd & _ & _). fold session' in Hd |- *. cbn [fst snd].
  assert (readingSessions
            (data (MangaTracker.updateMangaProgress session' (default 0%Z n) w1).2)
          = <[k := session']> (readingSessions (data w))) as Hs.
  { by rewrite updateMangaProgress_readingSessions, Hd. }
  split_and!; [done..|].
  unfold MangaTracker.findSession. rewrite Hs.
  apply (list_find_insert_same _ _ _ session); [done|].
  cbn. by eapply findSession_id.
Qed.

Lemma endReadingSession_bound (s : string) (n : Z) (w : World)
    (k : nat) (session : Session.t) (mid : string) (i : nat) (m : Manga.t) :
  MangaTracker.findSession s (data w) = Some (k, session) ->
  Session.mangaId session = Some mid ->
  mid <> "" ->
  MangaTracker.findManga mid (data w) = Some (i, m) ->
  (0 < n)%Z ->
  let c := clockReads w in
  let m' := advanced m n (clock w (S c)) (clock w (S (S c))) in
  let r := MangaTracker.endReadingSession s (Some n) w in
  manga (data r.2) = <[i := m']> (manga (data w)) /\
  MangaTracker.findManga mid (data r.2) = Some (i, m') /\
  clock r.2 = clock w /\
  clockReads r.2 = S (S (S c)).
Proof.
  intros Hfind Hmid Hne Hm Hn c m' r. subst r.
  destruct (endReadingSession_run s (Some n) w k session Hfind)
    as (w1 & -> & Hd & Hck & Hcr). cbn [fst snd].
  change (default 0%Z (Some n)) with n in *.
  set (session' := ended session _ _) in *.
  assert (MangaTracker.findManga mid (data w1) = Some (i, m)) as Hm1.
  { unfold MangaTracker.findManga. by rewrite Hd. }
  destruct (updateMangaProgress_bound session' mid n w1 i m Hmid Hne Hn Hm1)
    as (Hmanga & Hck' & Hcr').
  rewrite Hck, Hcr in Hmanga. rewrite Hd in Hmanga. cbn [manga setReadingSessions] in Hmanga.
  fold c m' in Hmanga.
  split_and!; [done| |congruence|by rewrite Hcr', Hcr].
  unfold MangaTracker.findManga. rewrite Hmanga.
  apply (list_find_insert_same _ _ _ m); [done|].
  cbn. by eapply findManga_id.
Qed.

Lemma get_advanced (f : Manga.field) (m : Manga.t) (n : Z) (lr ua : isoTime) :
  f <> Manga.FcurrentChapter -> f <> Manga.FlastRead -> f <> Manga.FupdatedAt ->
  Manga.get f (advanced m n lr ua) = Manga.get f m.
Proof. by destruct f. Qed.

Lemma currentChapter_advanced (m : Manga.t) (n : Z) (lr ua : isoTime) :
  Manga.currentChapter (advanced m n lr ua) = addNum (Manga.currentChapter m) n.
Proof. reflexivity. Qed.

(** Up to [2 ^ 53] in magnitude the sum of two numbers is their sum. *)
Lemma addNum_exact (a b : Z) :
  (Z.abs (a + b) <= 2 ^ 53)%Z -> addNum a b = (a + b)%Z.
Proof.
  intros H. unfold addNum, roundToDouble. cbn zeta.
  by destruct (Z.leb_spec (Z.abs (a + b)) (2 ^ 53)); [|lia].
Qed.

(** The progress block does nothing when no chapter was read, when the
    session is tied to no title, or when no title has the id it names. *)
Lemma updateMangaProgress_unbound session n w :
  (n <= 0)%Z \/ Session.mangaId session = None \/
  Session.mangaId session = Some "" \/
  (exists mid, Session.mangaId session = Some mid /\
               MangaTracker.findManga mid (data w) = None) ->
  manga (data (MangaTracker.updateMangaProgress session n w).2)
  = manga (data w).
Proof.
  intros H. unfold MangaTracker.updateMangaProgress, MangaTracker.progressTarget.
  destruct (Session.mangaId session) as [mid|] eqn:Hmid; [|done].
  destruct (truthyStr mid) eqn:Htruthy; [|done].
  destruct (Z.ltb_spec 0 n) as [Hn|Hn]; [|done]. cbn [andb].
  destruct H as [?|[?|[[= ->]|(mid' & [= <-] & Hnone)]]]; [lia|done|done|].
  rewrite bind_run. cbn [MangaTracker.getManga bind getData ret fst snd].
  by rewrite Hnone.
Qed.

(** C2, as stated, fails twice. Where two sessions carry the id, the
    second of them on a title, [endReadingSession] closes the first and
    the title stays where it was; and a title at [2 ^ 53] chapters stays
    there when one chapter more is read, the sum being a double. *)
Lemma endReadingSession_no_advance :
  (let w := twoSessionsOneId in
   let r := MangaTracker.endReadingSession "rsr" (Some 3%Z) w in
   (Manga.id <$> manga (data w)) = ["rsr"] /\
   ((fun s => (Session.id s, Session.mangaId s)) <$> readingSessions (data w))
   = [("rsr", None); ("rsr", Some "rsr")] /\
   (Session.mangaId <$> r.1) = Some None /\
   (Session.active <$> readingSessions (data r.2)) = [false; true] /\
   (Manga.currentChapter <$> manga (data r.2)) = [0%Z]) /\
  (let w := longRunWorld (2 ^ 53) in
   let r := MangaTracker.endReadingSession "rwr" (Some 1%Z) w in
   (Manga.id <$> manga (data w)) = ["rsr"] /\
   ((fun s => (Session.id s, Session.mangaId s)) <$> readingSessions (data w))
   = [("rwr", Some "rsr")] /\
   (Manga.currentChapter <$> manga (data w)) = [(2 ^ 53)%Z] /\
   (Session.active <$> readingSessions (data r.2)) = [false] /\
   (Manga.currentChapter <$> manga (data r.2)) = [(2 ^ 53)%Z]).
Proof. vm_compute. done. Qed.

(** C2, amended. When no session has the id, [endReadingSession] returns
    [null] and the world is as before. Otherwise it works on the first
    session with the id, which it leaves closed: inactive, its end time
    stamped, [n] chapters read; that session is returned. When that
    session has an id of title that is not empty, [n > 0], and [m] is the
    first title of the store with that id, [m] is replaced by a copy with
    [lastRead] and [updatedAt] stamped whose [currentChapter] is the sum,
    as doubles, of the one of [m] and [n]: larger by exactly [n] as long
    as the sum is no more than [2 ^ 53] in magnitude. When no chapter was
    read or the session names no title of the store, the titles are as
    before. *)
Theorem endReadingSession_spec (s : string) (w : World) :
  (forall n, MangaTracker.findSession s (data w) = None ->
             MangaTracker.endReadingSession s n w = (None, w)) /\
  (forall (n : Z) k session mid i m,
     MangaTracker.findSession s (data w) = Some (k, session) ->
     Session.mangaId session = Some mid ->
     mid <> "" ->
     MangaTracker.findManga mid (data w) = Some (i, m) ->
     (0 < n)%Z ->
     let r := MangaTracker.endReadingSession s (Some n) w in
     let c := clockReads w in
     exists session' m',
       r.1 = Some session' /\
       MangaTracker.findSession s (data r.2) = Some (k, session') /\
       Session.active session' = false /\
       Session.endTime session' = Some (clock w c) /\
       Session.chaptersRead session' = n /\
       Session.id session' = s /\
       Session.mangaId session' = Some mid /\
       Session.startTime session' = Session.startTime session /\
       (MangaTracker.getManga mid r.2).1 = Some m' /\
       manga (data r.2) = <[i := m']> (manga (data w)) /\
       Manga.currentChapter m' = addNum (Manga.currentChapter m) n /\
       ((Z.abs (Manga.currentChapter m + n) <= 2 ^ 53)%Z ->
        Manga.currentChapter m' = (Manga.currentChapter m + n)%Z) /\
       Manga.lastRead m' = Some (clock w (S c)) /\
       Manga.updatedAt m' = clock w (S (S c)) /\
       (forall f, f <> Manga.FcurrentChapter -> f <> Manga.FlastRead ->
                  f <> Manga.FupdatedAt -> Manga.get f m' = Manga.get f m)) /\
  (forall (n : Z) k session,
     MangaTracker.findSession s (data w) = Some (k, session) ->
     (n <= 0)%Z \/ Session.mangaId session = None \/
     Session.mangaId session = Some "" \/
     (exists mid, Session.mangaId session = Some mid /\
                  MangaTracker.findManga mid (data w) = None) ->
     let r := MangaTracker.endReadingSession s (Some n) w in
     r.1 = Some (ended session (clock w (clockReads w)) n) /\
     readingSessions (data r.2)
     = <[k := ended session (clock w (clockReads w)) n]>
         (readingSessions (data w)) /\
     manga (data r.2) = manga (data w)).
Proof.
  split_and!.
  - intros n Hnone. unfold MangaTracker.endReadingSession.
    rewrite bind_run. cbn [getData fst snd]. by rewrite Hnone.
  - intros n k session mid i m Hfind Hmid Hne Hm Hn r c.
    destruct (endReadingSession_found s (Some n) w k session Hfind)
      as (Hr & _ & Hfind').
    destruct (endReadingSession_bound s n w k session mid i m Hfind Hmid Hne Hm Hn)
      as (Hmanga & Hm' & _ & _).
    fold r in Hr, Hfind', Hmanga, Hm'. fold c in Hmanga, Hm'.
    eexists _, _. split_and!; try done.
    + cbn. by eapply findSession_id.
    + by rewrite getManga_run, Hm'.
    + intros Hsafe. rewrite currentChapter_advanced. by apply addNum_exact.
    + intros f. apply get_advanced.
  - intros n k session Hfind Hunbound r.
    destruct (endReadingSession_found s (Some n) w k session Hfind)
      as (Hr & Hs & _).
    change (default 0%Z (Some n)) with n in *.
    fold r in Hr, Hs. split_and!; [done..|]. subst r.
    destruct (endReadingSession_run s (Some n) w k session Hfind)
      as (w1 & -> & Hd & _ & _). cbn [snd].
    change (default 0%Z (Some n)) with n in *.
    rewrite updateMangaProgress_unbound; [by rewrite Hd|].
    unfold MangaTracker.findManga. rewrite Hd. exact Hunbound.
Qed.

Lemma endReadingSession_spec_witness :
  let r := MangaTracker.endReadingSession "rwr" (Some 3%Z) oneSessionWorld in
  (exists m',
     (MangaTracker.getManga "rsr" r.2).1 = Some m' /\
     Manga.currentChapter m' = 3%Z) /\
  manga (data (MangaTracker.endReadingSession "rwr" (Some 0%Z)
                 oneSessionWorld).2)
  = manga (data oneSessionWorld).
Proof.
  intros r.
  pose proof (endReadingSession_spec "rwr" oneSessionWorld) as (_ & H & H0).
  split.
  - destruct (H 3%Z 0
                (MangaTracker.startReadingSession (Some "rsr")
                   (MangaTracker.addManga (MangaData.named "Berserk")
                      (freshWorld 1000 1 "r")).2).1
                "rsr" 0
                (MangaTracker.addManga (MangaData.named "Berserk")
                   (freshWorld 1000 1 "r")).1)
      as (session' & m' & _ & _ & _ & _ & _ & _ & _ & _ & Hget & _ & _ & Hcc & _).
    + vm_compute. reflexivity.
    + vm_compute. reflexivity.
    + discriminate.
    + vm_compute. reflexivity.
    + lia.
    + exists m'. split; [exact Hget|].
      refine (eq_trans (Hcc _) _); [vm_compute; discriminate|].
      vm_compute. reflexivity.
  - refine (proj2 (proj2 (H0 0%Z 0
                (MangaTracker.startReadingSession (Some "rsr")
                   (MangaTracker.addManga (MangaData.named "Berserk")
                      (freshWorld 1000 1 "r")).2).1 _ _))).
    + vm_compute. reflexivity.
    + left. lia.
Defined.

(** C9, as stated, fails twice. A title at [2 ^ 53 - 1] chapters whose
    session is ended twice with one chapter read is one chapter further,
    not two, the second sum being a double; and where the title and the
    session on it carry the empty id, the session is closed twice and the
    title stays where it was. *)
Lemma endReadingSession_twice_not_double :
  (let w := longRunWorld (2 ^ 53 - 1) in
   let r1 := MangaTracker.endReadingSession "rwr" (Some 1%Z) w in
   let r2 := MangaTracker.endReadingSession "rwr" (Some 1%Z) r1.2 in
   (Manga.id <$> manga (data w)) = ["rsr"] /\
   ((fun s => (Session.id s, Session.mangaId s)) <$> readingSessions (data w))
   = [("rwr", Some "rsr")] /\
   (Manga.currentChapter <$> manga (data w)) = [(2 ^ 53 - 1)%Z] /\
   (Manga.currentChapter <$> manga (data r1.2)) = [(2 ^ 53)%Z] /\
   (Manga.currentChapter <$> manga (data r2.2)) = [(2 ^ 53)%Z]) /\
  (let w := emptyIdWorld in
   let r1 := MangaTracker.endReadingSession "rxr" (Some 3%Z) w in
   let r2 := MangaTracker.endReadingSession "rxr" (Some 3%Z) r1.2 in
   (Manga.id <$> manga (data w)) = [""] /\
   ((fun s => (Session.id s, Session.mangaId s)) <$> readingSessions (data w))
   = [("rxr", Some "")] /\
   (Session.active <$> r1.1) = Some false /\
   (Session.active <$> r2.1) = Some false /\
   (Manga.currentChapter <$> manga (data r2.2)) = [0%Z]).
Proof. vm_compute. done. Qed.

(** C9, amended. [endReadingSession] does not look at [active]: on the
    first session of the store with the id, closed or not, it succeeds and
    stamps the end time anew. When that session has an id of title that is
    not empty, [n > 0], and [m] is the first title of the store with that
    id, each call adds [n] to the chapters of the title, as doubles: two
    calls leave it larger by exactly [2 * n] as long as the title is not
    below [- 2 ^ 53] before and not above [2 ^ 53] after. *)
Theorem endReadingSession_twice (s : string) (w : World) :
  (forall n k session,
     MangaTracker.findSession s (data w) = Some (k, session) ->
     let r := MangaTracker.endReadingSession s n w in
     exists session',
       r.1 = Some session' /\
       MangaTracker.findSession s (data r.2) = Some (k, session') /\
       Session.endTime session' = Some (clock w (clockReads w)) /\
       Session.active session' = false) /\
  (forall (n : Z) k session mid i m,
     MangaTracker.findSession s (data w) = Some (k, session) ->
     Session.mangaId session = Some mid ->
     mid <> "" ->
     MangaTracker.findManga mid (data w) = Some (i, m) ->
     (0 < n)%Z ->
     let r1 := MangaTracker.endReadingSession s (Some n) w in
     let r2 := MangaTracker.endReadingSession s (Some n) r1.2 in
     exists session1 session2 m1 m2,
       r1.1 = Some session1 /\
       Session.active session1 = false /\
       r2.1 = Some session2 /\
       Session.endTime session2 = Some (clock w (3 + clockReads w)) /\
       (MangaTracker.getManga mid r1.2).1 = Some m1 /\
       Manga.currentChapter m1 = addNum (Manga.currentChapter m) n /\
       (MangaTracker.getManga mid r2.2).1 = Some m2 /\
       Manga.currentChapter m2 = addNum (addNum (Manga.currentChapter m) n) n /\
       ((- 2 ^ 53 <= Manga.currentChapter m)%Z ->
        (Manga.currentChapter m + 2 * n <= 2 ^ 53)%Z ->
        Manga.currentChapter m1 = (Manga.currentChapter m + n)%Z /\
        Manga.currentChapter m2 = (Manga.currentChapter m + 2 * n)%Z)).
Proof.
  split.
  - intros n k session Hfind r.
    destruct (endReadingSession_found s n w k session Hfind) as (Hr & _ & Hfind').
    eexists. split_and!; done.
  - intros n k session mid i m Hfind Hmid Hne Hm Hn r1 r2.
    destruct (endReadingSession_found s (Some n) w k session Hfind)
      as (Hr1 & _ & Hfind1).
    destruct (endReadingSession_bound s n w k session mid i m Hfind Hmid Hne Hm Hn)
      as (_ & Hm1 & Hck & Hcr).
    fold r1 in Hr1, Hfind1, Hm1, Hck, Hcr.
    destruct (endReadingSession_found s (Some n) r1.2 k _ Hfind1)
      as (Hr2 & _ & _).
    destruct (endReadingSession_bound s n r1.2 k _ mid i _ Hfind1 Hmid Hne Hm1 Hn)
      as (_ & Hm2 & _ & _).
    fold r2 in Hr2, Hm2.
    eexists _, _, _, _. split_and!; try done.
    + unfold ended at 1. cbn [Session.endTime]. by rewrite Hck, Hcr.
    + by rewrite getManga_run, Hm1.
    + reflexivity.
    + by rewrite getManga_run, Hm2.
    + cbn [snd]. by rewrite !currentChapter_advanced.
    + intros Hlow Hhigh. cbn [snd]. rewrite !currentChapter_advanced.
      assert (addNum (Manga.currentChapter m) n = (Manga.currentChapter m + n)%Z)
        as -> by (apply addNum_exact; lia).
      split; [done|]. rewrite addNum_exact by lia. lia.
Qed.

Lemma endReadingSession_twice_witness :
  let r1 := MangaTracker.endReadingSession "rwr" (Some 3%Z) oneSessionWorld in
  let r2 := MangaTracker.endReadingSession "rwr" (Some 3%Z) r1.2 in
  exists m2,
    (MangaTracker.getManga "rsr" r2.2).1 = Some m2 /\
    Manga.currentChapter m2 = 6%Z.
Proof.
  intros r1 r2.
  pose proof (endReadingSession_twice "rwr" oneSessionWorld) as [_ H].
  destruct (H 3%Z 0
              (MangaTracker.startReadingSession (Some "rsr")
                 (MangaTracker.addManga (MangaData.named "Berserk")
                    (freshWorld 1000 1 "r")).2).1
              "rsr" 0
              (MangaTracker.addManga (MangaData.named "Berserk")
                 (freshWorld 1000 1 "r")).1)
    as (session1 & session2 & m1 & m2 & _ & _ & _ & _ & _ & _ & Hget & _ & Hcc).
  - vm_compute. reflexivity.
  - vm_compute. reflexivity.
  - discriminate.
  - vm_compute. reflexivity.
  - lia.
  - exists m2. split; [exact Hget|].
    refine (eq_trans (proj2 (Hcc _ _)) _);
      [vm_compute; discriminate..|vm_compute; reflexivity].
Defined.

(** ** C1: one active session at most *)

(** *** What leaves the sessions alone *)

Lemma addManga_readingSessions mangaData w :
  readingSessions (data (MangaTracker.addManga mangaData w).2)
  = readingSessions (data w).
Proof. destruct mangaData as [? ? ? ? ? ? ? ? ? ? [t|] ? ?]; by run. Qed.

Lemma deleteManga_readingSessions id w :
  readingSessions (data (MangaTracker.deleteManga id w).2)
  = readingSessions (data w).
Proof.
  run. by destruct (MangaTracker.findManga id (data w)) as [[i m]|].
Qed.

Lemma addBookmark_readingSessions mangaId chapterNumber note w :
  readingSessions (data (MangaTracker.addBookmark mangaId chapterNumber note w).2)
  = readingSessions (data w).
Proof. by run. Qed.

Lemma removeBookmark_readingSessions id w :
  readingSessions (data (MangaTracker.removeBookmark id w).2)
  = readingSessions (data w).
Proof.
  run. by destruct (list_find _ (bookmarks (data w))) as [[i b]|].
Qed.

Lemma addToHistory_readingSessions mangaId action details w :
  readingSessions (data (MangaTracker.addToHistory mangaId action details w).2)
  = readingSessions (data w).
Proof. by run. Qed.

Lemma addReadToHistory_readingSessions chapters session w :
  readingSessions (data (UIController.addReadToHistory chapters session w).2)
  = readingSessions (data w).
Proof.
  unfold UIController.addReadToHistory.
  destruct (Session.mangaId session) as [mid|]; [|done].
  destruct (truthyStr mid); [|done].
  rewrite bind_run. cbn [MangaTracker.getManga bind getData ret fst snd].
  destruct (MangaTracker.findManga mid (data w)) as [[i m]|]; [|done].
  cbn [fmap option_fmap option_map snd].
  rewrite !bind_run. cbn [ret fst snd].
  by rewrite addToHistory_readingSessions.
Qed.

(** *** What the timer does to them *)

Lemma startReadingSession_run mangaId w :
  let r := MangaTracker.startReadingSession mangaId w in
  readingSessions (data r.2) = readingSessions (data w) ++ [r.1] /\
  Session.id r.1 = nextId w /\
  Session.active r.1 = true.
Proof. by run. Qed.

Lemma startTimer_run input w :
  let r := UIController.startTimer input w in
  exists session,
    r.1 = Some session /\
    readingSessions (data r.2) = readingSessions (data w) ++ [session] /\
    Session.id session = nextId w /\
    Session.active session = true.
Proof.
  unfold UIController.startTimer.
  rewrite bind_run. cbn [MangaTracker.getAllManga bind getData ret fst snd].
  rewrite bind_run. cbn [ret fst snd].
  eexists. split; [reflexivity|]. apply startReadingSession_run.
Qed.

Lemma stopTimer_run input session w k :
  MangaTracker.findSession (Session.id session) (data w) = Some (k, session) ->
  let r := UIController.stopTimer input (Some session) w in
  exists t n,
    r.1 = None /\
    readingSessions (data r.2)
    = <[k := ended session t n]> (readingSessions (data w)).
Proof.
  intros Hfind. unfold UIController.stopTimer.
  rewrite !bind_run. cbn [ret fst snd].
  destruct (endReadingSession_found _ (Some (orNum input 0)) w k session Hfind)
    as (_ & Hs & _).
  eexists _, _. split; [reflexivity|].
  by rewrite addReadToHistory_readingSessions, Hs.
Qed.

(** *** The invariant of the timer *)

Lemma NoDup_fmap_lookup {A B} (f : A -> B) (l : list A) i j x y :
  NoDup (f <$> l) -> l !! i = Some x -> l !! j = Some y -> f x = f y -> i = j.
Proof.
  intros Hnd Hi Hj Hf.
  apply (NoDup_lookup (f <$> l) i j (f x) Hnd).
  - by rewrite list_lookup_fmap, Hi.
  - by rewrite list_lookup_fmap, Hj, Hf.
Qed.

Lemma filter_none {A} (P : A -> Prop) `{!forall x, Decision (P x)} (l : list A) :
  Forall (fun x => ~ P x) l -> filter P l = [].
Proof.
  induction 1 as [|x l Hx _ IH]; [done|]. by rewrite filter_cons_False.
Qed.

Lemma timerInv_atMostOneActive activeTimer d :
  timerInv activeTimer d -> atMostOneActive d.
Proof.
  unfold timerInv, atMostOneActive, activeSessions, sessionIds.
  intros [Hnd Ht]. destruct activeTimer as [a|].
  - destruct Ht as [_ Hall].
    pose proof (NoDup_filter (fun s => Session.active s = true) _
                  (NoDup_fmap_1 _ _ Hnd)) as Hndf.
    assert (forall s, s ∈ filter (fun s => Session.active s = true)
                          (readingSessions d) -> s = a) as Hf.
    { intros s [? ?]%list_elem_of_filter. auto. }
    destruct (filter _ (readingSessions d)) as [|x [|y rest]]; cbn; [lia..|].
    exfalso. apply NoDup_cons in Hndf as [Hx _]. apply Hx.
    rewrite (Hf x), <- (Hf y); [|repeat constructor..].
    constructor.
  - rewrite Ht. cbn. lia.
Qed.

Lemma timerInv_init (w : World) :
  NoDup (sessionIds (data w)) -> atMostOneActive (data w) ->
  timerInv (UIController.setupTimerButton w).1 (data w).
Proof.
  unfold atMostOneActive, activeSessions. intros Hnd Hone.
  split; [done|].
  cbn [UIController.setupTimerButton MangaTracker.getActiveSession bind getData
         ret fst snd].
  destruct (list_find _ (readingSessions (data w))) as [[k a]|] eqn:Hfind; cbn.
  - apply list_find_Some in Hfind as (Hk & Ha & _).
    apply list_elem_of_lookup_2 in Hk. split; [done|].
    intros s Hs Hact.
    assert (a ∈ filter (fun s => Session.active s = true)
                  (readingSessions (data w))) as Ha'
      by by apply list_elem_of_filter.
    assert (s ∈ filter (fun s => Session.active s = true)
                  (readingSessions (data w))) as Hs'
      by by apply list_elem_of_filter.
    destruct (filter _ (readingSessions (data w))) as [|x [|y rest]];
      [by apply elem_of_nil in Ha'| |cbn in Hone; lia].
    apply list_elem_of_singleton in Ha', Hs'. congruence.
  - apply filter_none. by apply list_find_None in Hfind.
Qed.

Lemma timerInv_frame activeTimer d d' :
  readingSessions d' = readingSessions d ->
  timerInv activeTimer d -> timerInv activeTimer d'.
Proof.
  unfold timerInv, sessionIds, activeSessions. by intros ->.
Qed.

Lemma timerInv_start d d' session :
  timerInv None d ->
  readingSessions d' = readingSessions d ++ [session] ->
  Session.id session ∉ sessionIds d ->
  timerInv (Some session) d'.
Proof.
  unfold timerInv, sessionIds, activeSessions. intros [Hnd Hnone] -> Hfresh.
  split_and!.
  - rewrite fmap_app. apply NoDup_app. split_and!; [done| |apply NoDup_singleton].
    intros x Hx [->|[]%elem_of_nil]%elem_of_cons. done.
  - apply elem_of_app. right. by apply list_elem_of_singleton.
  - intros s [Hs|Hs%list_elem_of_singleton]%elem_of_app Hact; [|done].
    assert (s ∈ filter (fun s => Session.active s = true) (readingSessions d))
      as Hin by by apply list_elem_of_filter.
    rewrite Hnone in Hin. by apply elem_of_nil in Hin.
Qed.

(** The session the timer holds is the one its id finds. *)
Lemma timerInv_findSession d a :
  timerInv (Some a) d ->
  exists k, MangaTracker.findSession (Session.id a) d = Some (k, a).
Proof.
  unfold timerInv, sessionIds. intros (Hnd & Ha & _).
  destruct (list_find_elem_of (fun s => Session.id s = Session.id a)
              (readingSessions d) a Ha eq_refl) as [[k a'] Hfind].
  exists k. unfold MangaTracker.findSession. rewrite Hfind. do 2 f_equal.
  apply list_find_Some in Hfind as (Hk & Hid & _).
  apply list_elem_of_lookup_1 in Ha as [j Hj].
  assert (k = j) as -> by by eapply NoDup_fmap_lookup.
  congruence.
Qed.

Lemma timerInv_stop d d' a k t n :
  timerInv (Some a) d ->
  MangaTracker.findSession (Session.id a) d = Some (k, a) ->
  readingSessions d' = <[k := ended a t n]> (readingSessions d) ->
  timerInv None d'.
Proof.
  unfold timerInv, sessionIds, activeSessions.
  intros (Hnd & Ha & Hall) (Hk & _ & _)%list_find_Some ->.
  split.
  - rewrite list_fmap_insert. cbn [ended Session.id].
    rewrite list_insert_id; [done|]. by rewrite list_lookup_fmap, Hk.
  - apply filter_none, Forall_lookup. intros j s Hj Hact.
    apply list_lookup_insert_Some in Hj as [(_ & <- & _)|[Hne Hj]]; [done|].
    assert (s = a) as -> by (apply Hall; [by eapply list_elem_of_lookup_2|done]).
    apply Hne. eapply NoDup_lookup; [exact (NoDup_fmap_1 _ _ Hnd)|done..].
Qed.

Lemma handle_timerInv (e : event) activeTimer w :
  timerInv activeTimer (data w) ->
  match e, activeTimer with
  | ToggleTimer _, None => nextId w ∉ sessionIds (data w)
  | _, _ => True
  end ->
  timerInv (handle e activeTimer w).1 (data (handle e activeTimer w).2).
Proof.
  intros Hinv Hfresh.
  destruct e; cbn [handle]; try rewrite bind_run; cbn [ret fst snd].
  - destruct activeTimer as [a|]; cbn [UIController.toggleTimer].
    + destruct (timerInv_findSession _ _ Hinv) as [k Hfind].
      destruct (stopTimer_run input a w k Hfind) as (t & n & -> & Hs).
      by eapply timerInv_stop.
    + destruct (startTimer_run input w) as (session & -> & Hs & Hid & _).
      eapply timerInv_start; [done..|]. by rewrite Hid.
  - eapply timerInv_frame; [apply addManga_readingSessions|done].
  - eapply timerInv_frame; [apply updateManga_readingSessions|done].
  - eapply timerInv_frame; [apply deleteManga_readingSessions|done].
  - eapply timerInv_frame; [apply addBookmark_readingSessions|done].
  - eapply timerInv_frame; [apply removeBookmark_readingSessions|done].
  - eapply timerInv_frame; [apply addToHistory_readingSessions|done].
Qed.

Lemma handleAll_timerInv (es : list event) : forall activeTimer w,
  timerInv activeTimer (data w) ->
  sessionIdsFresh es activeTimer w ->
  timerInv (handleAll es activeTimer w).1 (data (handleAll es activeTimer w).2).
Proof.
  induction es as [|e es IH]; intros activeTimer w Hinv Hfresh; [done|].
  destruct Hfresh as [Hnow Hlater]. cbn [handleAll]. rewrite bind_run.
  apply IH; [|done]. by apply handle_timerInv.
Qed.

(** C1, as stated, fails: [startReadingSession] called twice on the store
    leaves two active sessions. *)
Lemma two_active_sessions :
  let w := ((MangaTracker.startReadingSession None ;;;
             MangaTracker.startReadingSession None)
              (freshWorld 1000 1 "r")).2 in
  Session.active <$> readingSessions (data w) = [true; true] /\
  length (activeSessions (data w)) = 2 /\
  ~ atMostOneActive (data w).
Proof.
  vm_compute. split_and!; [done..|]. intros H. inversion H as [|? H'].
  inversion H'.
Qed.

(** C1, amended. Start from a store whose sessions have pairwise distinct
    ids and of which one at most is active, with the timer set up from it
    by [setupTimerButton]. After any sequence of clicks on the timer
    button and of operations on titles, bookmarks and history, one session
    at most is active, provided each session the timer starts gets an id
    that no session of the store has. *)
Theorem timer_one_active (es : list event) (w : World) :
  NoDup (sessionIds (data w)) ->
  atMostOneActive (data w) ->
  let activeTimer := (UIController.setupTimerButton w).1 in
  sessionIdsFresh es activeTimer w ->
  atMostOneActive (data (handleAll es activeTimer w).2).
Proof.
  intros Hnd Hone activeTimer Hfresh.
  eapply timerInv_atMostOneActive, handleAll_timerInv; [|done].
  by apply timerInv_init.
Qed.

Lemma timer_one_active_witness :
  let es := [AddManga (MangaData.named "Berserk");
             ToggleTimer (Some 1%Z);
             AddToHistory "rsr" "updated" [];
             ToggleTimer (Some 3%Z);
             ToggleTimer None] in
  let w := freshWorld 1000 1 "r" in
  atMostOneActive (data (handleAll es (UIController.setupTimerButton w).1 w).2).
Proof.
  intros es w. apply (timer_one_active es w).
  - apply NoDup_nil_2.
  - vm_compute. lia.
  - vm_compute. split_and!; try done.
    all: intros H; repeat (apply elem_of_cons in H as [H|H]; [discriminate|]);
      by apply elem_of_nil in H.
Defined.

(** * Further properties of the store and of the controller *)

(** ** Persistence *)

(** *** A computation does not look at the storage *)

Lemma blind_ret {A} (a : A) : blind (ret a).
Proof. by intros w1 w2 H. Qed.

Lemma blind_bind {A B} (c : M A) (k : A -> M B) :
  blind c -> (forall a, blind (k a)) -> blind (bind c k).
Proof.
  intros Hc Hk w1 w2 H. rewrite !bind_run.
  destruct (Hc w1 w2 H) as [-> H']. by apply Hk.
Qed.

Lemma blind_now : blind now.
Proof.
  intros w1 w2 (Hd & Hc & Hr & Hrd & Hrr). unfold sameButStorage. cbn.
  by rewrite Hd, Hc, Hr, Hrd, Hrr.
Qed.

Lemma blind_mathRandom36 : blind mathRandom36.
Proof.
  intros w1 w2 (Hd & Hc & Hr & Hrd & Hrr). unfold sameButStorage. cbn.
  by rewrite Hd, Hc, Hr, Hrd, Hrr.
Qed.

Lemma blind_getData : blind getData.
Proof. intros w1 w2 H. split; [apply H|done]. Qed.

Lemma blind_setData d : blind (setData d).
Proof.
  intros w1 w2 (Hd & Hc & Hr & Hrd & Hrr). unfold sameButStorage. cbn.
  by rewrite Hc, Hr, Hrd, Hrr.
Qed.

Lemma blind_saveData : blind MangaTracker.saveData.
Proof.
  intros w1 w2 (Hd & Hc & Hr & Hrd & Hrr). unfold sameButStorage. cbn.
  by rewrite Hd, Hc, Hr, Hrd, Hrr.
Qed.

Ltac blind_step :=
  first
    [ apply blind_ret | apply blind_now | apply blind_mathRandom36
    | apply blind_getData | apply blind_setData | apply blind_saveData
    | apply blind_bind; [|intros ?]
    | match goal with
      | |- blind (match ?x with _ => _ end) => destruct x
      | |- blind (let _ := _ in _) => cbn zeta
      end ].

Lemma blind_generateId : blind MangaTracker.generateId.
Proof. unfold MangaTracker.generateId. repeat blind_step. Qed.

Lemma blind_updateManga id u : blind (MangaTracker.updateManga id u).
Proof. unfold MangaTracker.updateManga. repeat blind_step. Qed.

Lemma blind_getManga id : blind (MangaTracker.getManga id).
Proof. unfold MangaTracker.getManga. repeat blind_step. Qed.

Lemma blind_updateMangaProgress session n :
  blind (MangaTracker.updateMangaProgress session n).
Proof.
  unfold MangaTracker.updateMangaProgress.
  repeat first [apply blind_getManga | apply blind_updateManga | blind_step].
Qed.

Lemma blind_perform op : blind (perform op).
Proof.
  destruct op; cbn [perform];
    unfold MangaTracker.addManga, MangaTracker.deleteManga,
      MangaTracker.startReadingSession, MangaTracker.endReadingSession,
      MangaTracker.addBookmark, MangaTracker.removeBookmark,
      MangaTracker.addToHistory;
    repeat first [ apply blind_generateId | apply blind_updateManga
                 | apply blind_updateMangaProgress | blind_step ].
Qed.

Lemma blind_performAll ops : blind (performAll ops).
Proof.
  induction ops as [|op ops IH]; cbn [performAll]; [apply blind_ret|].
  apply blind_bind; [apply blind_perform|done].
Qed.

Lemma sameButStorage_withSetItemOk ok w : sameButStorage (withSetItemOk ok w) w.
Proof. by unfold sameButStorage. Qed.

(** *** The storage follows the memory when the writes succeed *)

Lemma syncs_ret {A} (a : A) : syncs (ret a).
Proof. by intros w H. Qed.

Lemma syncs_bind {A B} (c : M A) (k : A -> M B) :
  syncs c -> (forall a, syncs (k a)) -> syncs (bind c k).
Proof.
  intros Hc Hk w Hok. rewrite !bind_run.
  destruct (Hc w Hok) as [Hok' Hsync].
  destruct (Hk (c w).1 (c w).2 Hok') as [Hok'' Hsync'']. auto.
Qed.

Lemma syncs_now : syncs now.
Proof. by intros w H. Qed.

Lemma syncs_mathRandom36 : syncs mathRandom36.
Proof. by intros w H. Qed.

Lemma syncs_getData : syncs getData.
Proof. by intros w H. Qed.

(** A change of the document followed by [saveData]. *)
Lemma syncs_setData_saveData {A} d (k : M A) :
  syncs k -> syncs (setData d ;;; MangaTracker.saveData ;;; k).
Proof.
  intros Hk w Hok. rewrite !bind_run.
  set (w2 := (MangaTracker.saveData (setData d w).2).2).
  assert (allOk w2) as Hok2 by done.
  assert (inSync w2) as Hsync2.
  { unfold inSync, w2. cbn. by rewrite Hok. }
  destruct (Hk w2 Hok2) as [? Hs]. auto.
Qed.

Ltac syncs_step :=
  first
    [ apply syncs_ret | apply syncs_now | apply syncs_mathRandom36
    | apply syncs_getData | apply syncs_setData_saveData
    | apply syncs_bind; [|intros ?]
    | match goal with
      | |- syncs (match ?x with _ => _ end) => destruct x
      | |- syncs (let _ := _ in _) => cbn zeta
      end ].

Lemma syncs_generateId : syncs MangaTracker.generateId.
Proof. unfold MangaTracker.generateId. repeat syncs_step. Qed.

Lemma syncs_updateManga id u : syncs (MangaTracker.updateManga id u).
Proof. unfold MangaTracker.updateManga. repeat syncs_step. Qed.

Lemma syncs_getManga id : syncs (MangaTracker.getManga id).
Proof. unfold MangaTracker.getManga. repeat syncs_step. Qed.

Lemma syncs_updateMangaProgress session n :
  syncs (MangaTracker.updateMangaProgress session n).
Proof.
  unfold MangaTracker.updateMangaProgress.
  repeat first [apply syncs_getManga | apply syncs_updateManga | syncs_step].
Qed.

Lemma syncs_perform op : syncs (perform op).
Proof.
  destruct op; cbn [perform];
    unfold MangaTracker.addManga, MangaTracker.deleteManga,
      MangaTracker.startReadingSession, MangaTracker.endReadingSession,
      MangaTracker.addBookmark, MangaTracker.removeBookmark,
      MangaTracker.addToHistory;
    repeat first [ apply syncs_generateId | apply syncs_updateManga
                 | apply syncs_updateMangaProgress | syncs_step ].
Qed.

Lemma syncs_performAll ops : syncs (performAll ops).
Proof.
  induction ops as [|op ops IH]; cbn [performAll]; [apply syncs_ret|].
  apply syncs_bind; [apply syncs_perform|done].
Qed.

(** The constructor leaves the storage in step with the memory. *)
Lemma constructor_inSync w :
  allOk w ->
  allOk (MangaTracker.constructor w).2 /\ inSync (MangaTracker.constructor w).2.
Proof.
  intros Hok. unfold MangaTracker.constructor, MangaTracker.initializeDefaultData.
  rewrite !bind_run. split; [done|]. unfold inSync. cbn. by rewrite Hok.
Qed.

(** From a storage in step with the memory, the constructor loads the
    document that is in memory. *)
Lemma constructor_reload w :
  inSync w -> data (MangaTracker.constructor w).2 = data w.
Proof.
  unfold inSync. intros Hs.
  unfold MangaTracker.constructor, MangaTracker.initializeDefaultData,
    MangaTracker.loadData.
  rewrite !bind_run. cbn. rewrite Hs. by destruct (data w).
Qed.

(** X1. As long as the writes to the storage succeed, nothing is lost on a
    reload: after the constructor and any sequence of operations of the
    store, the storage holds the document in memory, and a tracker
    constructed anew has exactly the data the operations left. *)
Theorem reload_after_operations (ops : list operation) (w : World) :
  allOk w ->
  let w' := (performAll ops (MangaTracker.constructor w).2).2 in
  stored w' = Some (data w') /\
  data (MangaTracker.constructor w').2 = data w'.
Proof.
  intros Hok w'.
  destruct (constructor_inSync w Hok) as [Hok0 Hsync0].
  destruct (syncs_performAll ops _ Hok0) as [_ Hsync].
  specialize (Hsync Hsync0). split; [done|]. by apply constructor_reload.
Qed.

Lemma reload_after_operations_witness :
  let w' := (performAll someOperations
               (MangaTracker.constructor (freshWorld 1000 1 "r")).2).2 in
  Manga.currentChapter <$> manga (data w') = [2%Z] /\
  data (MangaTracker.constructor w').2 = data w'.
Proof.
  intros w'. split; [reflexivity|].
  apply (reload_after_operations someOperations (freshWorld 1000 1 "r")).
  intros k. reflexivity.
Defined.

(** *** The storage stays behind when the writes fail *)

Lemma quiet_ret {A} (a : A) : quiet (ret a).
Proof. by intros w H. Qed.

Lemma quiet_bind {A B} (c : M A) (k : A -> M B) :
  quiet c -> (forall a, quiet (k a)) -> quiet (bind c k).
Proof.
  intros Hc Hk w Hno. rewrite !bind_run.
  destruct (Hc w Hno) as [Hno' Hst].
  destruct (Hk (c w).1 (c w).2 Hno') as [Hno'' Hst'']. split; [done|congruence].
Qed.

Lemma quiet_now : quiet now.
Proof. by intros w H. Qed.

Lemma quiet_mathRandom36 : quiet mathRandom36.
Proof. by intros w H. Qed.

Lemma quiet_getData : quiet getData.
Proof. by intros w H. Qed.

Lemma quiet_setData d : quiet (setData d).
Proof. by intros w H. Qed.

Lemma quiet_saveData : quiet MangaTracker.saveData.
Proof. intros w H. split; [done|]. cbn. by rewrite H. Qed.

Ltac quiet_step :=
  first
    [ apply quiet_ret | apply quiet_now | apply quiet_mathRandom36
    | apply quiet_getData | apply quiet_setData | apply quiet_saveData
    | apply quiet_bind; [|intros ?]
    | match goal with
      | |- quiet (match ?x with _ => _ end) => destruct x
      | |- quiet (let _ := _ in _) => cbn zeta
      end ].

Lemma quiet_generateId : quiet MangaTracker.generateId.
Proof. unfold MangaTracker.generateId. repeat quiet_step. Qed.

Lemma quiet_updateManga id u : quiet (MangaTracker.updateManga id u).
Proof. unfold MangaTracker.updateManga. repeat quiet_step. Qed.

Lemma quiet_getManga id : quiet (MangaTracker.getManga id).
Proof. unfold MangaTracker.getManga. repeat quiet_step. Qed.

Lemma quiet_updateMangaProgress session n :
  quiet (MangaTracker.updateMangaProgress session n).
Proof.
  unfold MangaTracker.updateMangaProgress.
  repeat first [apply quiet_getManga | apply quiet_updateManga | quiet_step].
Qed.

Lemma quiet_perform op : quiet (perform op).
Proof.
  destruct op; cbn [perform];
    unfold MangaTracker.addManga, MangaTracker.deleteManga,
      MangaTracker.startReadingSession, MangaTracker.endReadingSession,
      MangaTracker.addBookmark, MangaTracker.removeBookmark,
      MangaTracker.addToHistory;
    repeat first [ apply quiet_generateId | apply quiet_updateManga
                 | apply quiet_updateMangaProgress | quiet_step ].
Qed.

Lemma quiet_performAll ops : quiet (performAll ops).
Proof.
  induction ops as [|op ops IH]; cbn [performAll]; [apply quiet_ret|].
  apply quiet_bind; [apply quiet_perform|done].
Qed.

(** X2. A failed write is not seen in memory and is not made up for: the
    data that a sequence of operations leaves are the same whatever
    happens to the writes, and when every write fails the storage still
    holds what it held before the first operation. *)
Theorem write_failure_keeps_memory (ops : list operation) (w : World) :
  (forall ok,
     data (performAll ops (withSetItemOk ok w)).2 = data (performAll ops w).2) /\
  (noneOk w -> stored (performAll ops w).2 = stored w).
Proof.
  split.
  - intros ok.
    apply (blind_performAll ops _ _ (sameButStorage_withSetItemOk ok w)).
  - intros Hno. by apply quiet_performAll.
Qed.

Lemma write_failure_keeps_memory_witness :
  let w := withSetItemOk (fun _ => false) (freshWorld 1000 1 "r") in
  Manga.currentChapter <$> manga (data (performAll someOperations w).2) = [2%Z] /\
  stored (performAll someOperations w).2 = None.
Proof.
  intros w. split; [reflexivity|].
  destruct (write_failure_keeps_memory someOperations w) as [_ H].
  rewrite H; [reflexivity|]. intros k. reflexivity.
Defined.

(** ** Frames *)

Lemma updateManga_besidesManga id u w :
  besidesManga (data (MangaTracker.updateManga id u w).2) = besidesManga (data w).
Proof.
  run. by destruct (MangaTracker.findManga id (data w)) as [[i m]|].
Qed.

Lemma updateMangaProgress_besidesManga session n w :
  besidesManga (data (MangaTracker.updateMangaProgress session n w).2)
  = besidesManga (data w).
Proof.
  unfold MangaTracker.updateMangaProgress.
  destruct (MangaTracker.progressTarget session n) as [mid|]; [|done].
  rewrite bind_run. cbn [MangaTracker.getManga bind getData ret fst snd].
  destruct (MangaTracker.findManga mid (data w)) as [[i m]|]; [|done].
  cbn [fmap option_fmap option_map snd].
  rewrite !bind_run. cbn [ret fst snd].
  by rewrite updateManga_besidesManga.
Qed.

Lemma endReadingSession_besidesMangaAndSessions s n w :
  besidesMangaAndSessions (data (MangaTracker.endReadingSession s n w).2)
  = besidesMangaAndSessions (data w).
Proof.
  destruct (MangaTracker.findSession s (data w)) as [[k session]|] eqn:Hfind.
  - destruct (endReadingSession_run s n w k session Hfind)
      as (w1 & -> & Hd & _ & _). cbn [snd].
    pose proof (updateMangaProgress_besidesManga
                  (ended session (clock w (clockReads w)) (default 0%Z n))
                  (default 0%Z n) w1) as H.
    unfold besidesManga, besidesMangaAndSessions in *.
    rewrite Hd in H. cbn in H. injection H as _ Hb Hh Ht Hs. congruence.
  - unfold MangaTracker.endReadingSession.
    rewrite bind_run. cbn [getData fst snd]. by rewrite Hfind.
Qed.

(** X3. Each operation of the store writes its own collections only:
    the operations on titles leave sessions, bookmarks and history as they
    are, [endReadingSession] leaves bookmarks and history, and so on; and
    no sequence of operations ever changes the tag catalogue or the
    settings. *)
Theorem operations_frame :
  (forall op w,
     let d := data w in
     let d' := data (perform op w).2 in
     match op with
     | OpAddManga _ | OpUpdateManga _ _ | OpDeleteManga _ =>
         besidesManga d' = besidesManga d
     | OpStartReadingSession _ => besidesSessions d' = besidesSessions d
     | OpEndReadingSession _ _ =>
         besidesMangaAndSessions d' = besidesMangaAndSessions d
     | OpAddBookmark _ _ _ | OpRemoveBookmark _ =>
         besidesBookmarks d' = besidesBookmarks d
     | OpAddToHistory _ _ _ => besidesHistory d' = besidesHistory d
     end) /\
  (forall ops w,
     tags (data (performAll ops w).2) = tags (data w) /\
     settings (data (performAll ops w).2) = settings (data w)).
Proof.
  assert (forall op w,
     let d := data w in
     let d' := data (perform op w).2 in
     match op with
     | OpAddManga _ | OpUpdateManga _ _ | OpDeleteManga _ =>
         besidesManga d' = besidesManga d
     | OpStartReadingSession _ => besidesSessions d' = besidesSessions d
     | OpEndReadingSession _ _ =>
         besidesMangaAndSessions d' = besidesMangaAndSessions d
     | OpAddBookmark _ _ _ | OpRemoveBookmark _ =>
         besidesBookmarks d' = besidesBookmarks d
     | OpAddToHistory _ _ _ => besidesHistory d' = besidesHistory d
     end) as Hone.
  { intros op w. destruct op; cbn [perform]; rewrite bind_run; cbn [ret snd].
    - destruct mangaData as [? ? ? ? ? ? ? ? ? ? [t|] ? ?]; by run.
    - apply updateManga_besidesManga.
    - run. by destruct (MangaTracker.findManga id (data w)) as [[i m]|].
    - by run.
    - apply endReadingSession_besidesMangaAndSessions.
    - by run.
    - run. by destruct (list_find _ (bookmarks (data w))) as [[i b]|].
    - by run. }
  split; [exact Hone|].
  intros ops. induction ops as [|op ops IH]; intros w; [done|].
  cbn [performAll]. rewrite bind_run.
  destruct (IH (perform op w).2) as [-> ->].
  specialize (Hone op w). cbn zeta in Hone.
  destruct op; split;
    first [exact (f_equal (fun t => t.1.2) Hone) | exact (f_equal snd Hone)].
Qed.

(** ** Bookmarks *)

(** The first match of a list with one more element at its end. *)
Lemma list_find_snoc {A} (P : A -> Prop) `{!forall x, Decision (P x)}
    (l : list A) (x : A) :
  list_find P (l ++ [x]) =
  match list_find P l with
  | Some r => Some r
  | None => if decide (P x) then Some (length l, x) else None
  end.
Proof.
  destruct (list_find P l) as [[i y]|] eqn:Hl.
  - by apply list_find_app_l.
  - rewrite list_find_app_r by done. cbn. by case_decide.
Qed.

Lemma addBookmark_run mangaId chapterNumber note w :
  let r := MangaTracker.addBookmark mangaId chapterNumber note w in
  bookmarks (data r.2) = bookmarks (data w) ++ [r.1] /\
  besidesBookmarks (data r.2) = besidesBookmarks (data w) /\
  Bookmark.id r.1 = nextId w /\
  Bookmark.mangaId r.1 = mangaId /\
  Bookmark.chapterNumber r.1 = chapterNumber /\
  Bookmark.note r.1 = default "" note /\
  Bookmark.createdAt r.1 = clock w (S (clockReads w)).
Proof. by run. Qed.

(** X4. [removeBookmark] with an id that no bookmark has returns [null]
    and leaves the world as it is; otherwise it returns the first bookmark
    with that id and removes that one alone, the others staying in their
    order, and nothing but the bookmarks changes. *)
Theorem removeBookmark_spec (id : string) (w : World) :
  let found := list_find (fun b => Bookmark.id b = id) (bookmarks (data w)) in
  let r := MangaTracker.removeBookmark id w in
  (found = None -> r = (None, w)) /\
  (forall i b, found = Some (i, b) ->
     r.1 = Some b /\
     Bookmark.id b = id /\
     bookmarks (data r.2) = take i (bookmarks (data w)) ++
                            drop (S i) (bookmarks (data w)) /\
     length (bookmarks (data r.2)) + 1 = length (bookmarks (data w)) /\
     besidesBookmarks (data r.2) = besidesBookmarks (data w)).
Proof.
  cbn zeta. split.
  - intros Hnone. run. by rewrite Hnone.
  - intros i b Hfind. pose proof Hfind as (Hi & Hid & _)%list_find_Some.
    run. rewrite Hfind. cbn. split_and!; try done.
    + apply delete_take_drop.
    + rewrite length_delete by eauto. apply lookup_lt_Some in Hi. lia.
Qed.

Lemma removeBookmark_spec_witness :
  let w := (MangaTracker.addBookmark "rsr" 7 None (freshWorld 1000 1 "r")).2 in
  MangaTracker.removeBookmark "none" w = (None, w) /\
  bookmarks (data (MangaTracker.removeBookmark "rsr" w).2) = [].
Proof.
  intros w. destruct (removeBookmark_spec "none" w) as [Hnone _].
  destruct (removeBookmark_spec "rsr" w) as [_ Hsome].
  split; [by apply Hnone|].
  destruct (Hsome 0 (MangaTracker.addBookmark "rsr" 7 None
                       (freshWorld 1000 1 "r")).1 eq_refl)
    as (_ & _ & -> & _). reflexivity.
Defined.

(** X5. A bookmark added and then removed by the id it was given leaves
    the document as it was, provided no older bookmark has that id; when
    one has, it is the older bookmark that goes and the new one stays. *)
Theorem bookmark_add_remove (mangaId : string) (chapterNumber : Z)
    (note : option string) (w : World) :
  let r1 := MangaTracker.addBookmark mangaId chapterNumber note w in
  let r2 := MangaTracker.removeBookmark (Bookmark.id r1.1) r1.2 in
  (Bookmark.id r1.1 ∉ (Bookmark.id <$> bookmarks (data w)) ->
   r2.1 = Some r1.1 /\ data r2.2 = data w) /\
  (forall i b,
     list_find (fun b => Bookmark.id b = Bookmark.id r1.1) (bookmarks (data w))
     = Some (i, b) ->
     r2.1 = Some b /\
     bookmarks (data r2.2) = delete i (bookmarks (data w)) ++ [r1.1]).
Proof.
  cbn zeta.
  destruct (addBookmark_run mangaId chapterNumber note w)
    as (Hb & Hframe & _).
  set (r1 := MangaTracker.addBookmark mangaId chapterNumber note w) in *.
  set (P := fun b => Bookmark.id b = Bookmark.id r1.1).
  assert (list_find P (bookmarks (data r1.2)) =
          match list_find P (bookmarks (data w)) with
          | Some r => Some r
          | None => Some (length (bookmarks (data w)), r1.1)
          end) as Hfind.
  { rewrite Hb, list_find_snoc. destruct (list_find P _); [done|].
    by rewrite decide_True. }
  split.
  - intros Hfresh.
    assert (list_find P (bookmarks (data w)) = None) as Hnone.
    { apply list_find_None, Forall_forall. intros b Hin HP.
      apply Hfresh. rewrite <- HP. by apply list_elem_of_fmap_2. }
    rewrite Hnone in Hfind.
    destruct (removeBookmark_spec (Bookmark.id r1.1) r1.2) as [_ H].
    destruct (H _ _ Hfind) as (Hr & _ & Hbs & _ & Hfr).
    split; [done|].
    rewrite Hb, take_app_length, drop_ge in Hbs
      by (rewrite length_app; cbn; lia).
    rewrite app_nil_r in Hbs.
    unfold besidesBookmarks in Hfr, Hframe.
    destruct (data (MangaTracker.removeBookmark (Bookmark.id r1.1) r1.2).2),
      (data w). cbn in *. congruence.
  - intros i b Hold. fold P in Hold. rewrite Hold in Hfind.
    destruct (removeBookmark_spec (Bookmark.id r1.1) r1.2) as [_ H].
    destruct (H _ _ Hfind) as (Hr & _ & Hbs & _).
    split; [done|]. rewrite Hbs, Hb.
    apply list_find_Some in Hold as (Hi%lookup_lt_Some & _).
    rewrite take_app_le, drop_app_le by lia.
    by rewrite app_assoc, delete_take_drop.
Qed.

Lemma bookmark_add_remove_witness :
  let w := (MangaTracker.addManga (MangaData.named "Berserk")
              (freshWorld 1000 1 "r")).2 in
  let r1 := MangaTracker.addBookmark "rsr" 7 (Some "fight") w in
  data (MangaTracker.removeBookmark (Bookmark.id r1.1) r1.2).2 = data w.
Proof.
  intros w r1.
  apply (bookmark_add_remove "rsr" 7 (Some "fight") w).
  vm_compute. by intros ?%elem_of_nil.
Defined.

(** ** History *)



(** ** Ids *)

Lemma digits36_cons fuel : forall n c acc,
  exists c' s, digits36 fuel n (String c acc) = String c' s.
Proof.
  induction fuel as [|fuel IH]; intros n c acc; cbn [digits36]; [by eauto|].
  destruct (n / 36 =? 0)%Z; [by eauto|]. apply IH.
Qed.

Lemma toString36_nonempty (n : Z) : toString36 n <> "".
Proof.
  unfold toString36. destruct (n <? 0)%Z; [done|].
  cbn [digits36]. destruct (n / 36 =? 0)%Z; [done|].
  destruct (digits36_cons (Z.to_nat (Z.log2 n)) (n / 36)
              (digit36 (n mod 36)) "") as (c & s & ->). done.
Qed.

Lemma nextId_truthy (w : World) : truthyStr (nextId w) = true.
Proof.
  apply truthyStr_true. unfold nextId. cbn.
  pose proof (toString36_nonempty (clock w (clockReads w))) as H.
  destruct (toString36 _); [done|]. done.
Qed.

(** X7. An id that [generateId] makes is never the empty string, so the id
    of a record the store creates always passes the tests the code makes
    on ids ([session.mangaId && ...], [if (this.activeTimer.mangaId)]). *)
Theorem generated_ids_truthy (w : World) :
  (MangaTracker.generateId w).1 <> "" /\
  (forall mangaData,
     truthyStr (Manga.id (MangaTracker.addManga mangaData w).1) = true) /\
  (forall mangaId,
     truthyStr (Session.id (MangaTracker.startReadingSession mangaId w).1) = true) /\
  (forall mangaId chapterNumber note,
     truthyStr (Bookmark.id (MangaTracker.addBookmark mangaId chapterNumber note w).1)
     = true) /\
  (forall mangaId action details,
     truthyStr (HistoryEntry.id (MangaTracker.addToHistory mangaId action details w).1)
     = true).
Proof.
  pose proof (nextId_truthy w) as H. split_and!.
  - by apply truthyStr_true.
  - intros [? ? ? ? ? ? ? ? ? ? [t|] ? ?]; exact H.
  - intros mangaId. exact H.
  - intros mangaId chapterNumber note. exact H.
  - intros mangaId action details. exact H.
Qed.

(** ** Sessions *)

Lemma list_find_head_filter {A} (P : A -> Prop) `{!forall x, Decision (P x)}
    (l : list A) :
  snd <$> list_find P l = head (filter P l).
Proof.
  induction l as [|x l IH]; [done|]. cbn [list_find].
  rewrite filter_cons. case_decide; [done|].
  rewrite <- IH. by destruct (list_find P l) as [[i y]|].
Qed.

(** X8. [getActiveSession] reports the first active session of the store.
    So a session started while another one is active is not the one
    reported: the older one still is; and a session started when none is
    active is reported at once. *)
Theorem getActiveSession_first (w : World) :
  (MangaTracker.getActiveSession w).2 = w /\
  (MangaTracker.getActiveSession w).1 = head (activeSessions (data w)) /\
  (forall mangaId,
     let r := MangaTracker.startReadingSession mangaId w in
     (MangaTracker.getActiveSession r.2).1 =
     match (MangaTracker.getActiveSession w).1 with
     | Some older => Some older
     | None => Some r.1
     end).
Proof.
  assert (forall w', (MangaTracker.getActiveSession w').1
                     = head (activeSessions (data w'))) as Hhead.
  { intros w'. unfold activeSessions. rewrite <- list_find_head_filter.
    reflexivity. }
  split_and!; [done|apply Hhead|].
  intros mangaId r. rewrite !Hhead. unfold activeSessions.
  destruct (startReadingSession_run mangaId w) as (Hs & _ & Hact).
  fold r in Hs, Hact. rewrite Hs, filter_app, filter_cons_True by done.
  by destruct (filter _ (readingSessions (data w))).
Qed.

Lemma addManga_run mangaData w :
  let r := MangaTracker.addManga mangaData w in
  manga (data r.2) = manga (data w) ++ [r.1] /\
  besidesManga (data r.2) = besidesManga (data w) /\
  Manga.id r.1 = nextId w /\
  Manga.currentChapter r.1 = orNum (MangaData.currentChapter mangaData) 0.
Proof. destruct mangaData as [? ? ? ? ? ? ? ? ? ? [t|] ? ?]; by run. Qed.

Lemma startReadingSession_frame mangaId w :
  let r := MangaTracker.startReadingSession mangaId w in
  besidesSessions (data r.2) = besidesSessions (data w) /\
  Session.mangaId r.1 = mangaId.
Proof. by run. Qed.

(** X9. A title is created, a session is started on it and ended with
    [n > 0] chapters read. When the id of the title is new among the
    titles and the id of the session new among the sessions, the title
    ends with the progress it was created with plus [n] (the sum being no
    more than [2 ^ 53] in magnitude, where sums of numbers are exact), the
    session is returned closed, and no session that was not active before
    is active after. *)
Theorem create_read_advance (mangaData : MangaData.t) (n : Z) (w : World) :
  (0 < n)%Z ->
  (Z.abs (orNum (MangaData.currentChapter mangaData) 0 + n) <= 2 ^ 53)%Z ->
  let r1 := MangaTracker.addManga mangaData w in
  let r2 := MangaTracker.startReadingSession (Some (Manga.id r1.1)) r1.2 in
  let r3 := MangaTracker.endReadingSession (Session.id r2.1) (Some n) r2.2 in
  Manga.id r1.1 ∉ (Manga.id <$> manga (data w)) ->
  Session.id r2.1 ∉ sessionIds (data w) ->
  exists m' session',
    (MangaTracker.getManga (Manga.id r1.1) r3.2).1 = Some m' /\
    Manga.currentChapter m' =
      (orNum (MangaData.currentChapter mangaData) 0 + n)%Z /\
    Manga.title m' = MangaData.title mangaData /\
    r3.1 = Some session' /\
    Session.active session' = false /\
    Session.chaptersRead session' = n /\
    readingSessions (data r3.2) = readingSessions (data w) ++ [session'] /\
    activeSessions (data r3.2) = activeSessions (data w).
Proof.
  intros Hn Hsafe r1 r2 r3 Hfresh Hsfresh.
  destruct (addManga_run mangaData w) as (Hm & Hfr1 & _ & Hcc).
  destruct (startReadingSession_run (Some (Manga.id r1.1)) r1.2)
    as (Hs & _ & _).
  destruct (startReadingSession_frame (Some (Manga.id r1.1)) r1.2)
    as (Hfr2 & Hmid).
  fold r1 in Hm, Hfr1, Hcc, Hs, Hfr2, Hmid. fold r2 in Hs, Hfr2, Hmid.
  assert (readingSessions (data r1.2) = readingSessions (data w)) as Hs1
    by exact (f_equal (fun t => t.1.1.1.1) Hfr1).
  assert (manga (data r2.2) = manga (data r1.2)) as Hm2
    by exact (f_equal (fun t => t.1.1.1.1) Hfr2).
  assert (MangaTracker.findManga (Manga.id r1.1) (data r2.2)
          = Some (length (manga (data w)), r1.1)) as Hfindm.
  { unfold MangaTracker.findManga. rewrite Hm2, Hm, list_find_snoc.
    rewrite decide_True by done.
    destruct (list_find _ (manga (data w))) as [[i m]|] eqn:Hold; [|done].
    apply list_find_Some in Hold as (Hi & Hid & _). exfalso. apply Hfresh.
    rewrite <- Hid. eapply list_elem_of_fmap_2, list_elem_of_lookup_2, Hi. }
  assert (MangaTracker.findSession (Session.id r2.1) (data r2.2)
          = Some (length (readingSessions (data w)), r2.1)) as Hfinds.
  { unfold MangaTracker.findSession. rewrite Hs, Hs1, list_find_snoc.
    rewrite decide_True by done.
    destruct (list_find _ (readingSessions (data w))) as [[i s]|] eqn:Hold;
      [|done].
    apply list_find_Some in Hold as (Hi & Hid & _). exfalso. apply Hsfresh.
    unfold sessionIds. rewrite <- Hid.
    eapply list_elem_of_fmap_2, list_elem_of_lookup_2, Hi. }
  pose proof (nextId_truthy w) as Htruthy%truthyStr_true.
  assert (Manga.id r1.1 <> "") as Hne.
  { destruct (addManga_run mangaData w) as (_ & _ & Hid & _).
    fold r1 in Hid. by rewrite Hid. }
  destruct (endReadingSession_found _ (Some n) r2.2 _ _ Hfinds)
    as (Hr3 & Hs3 & _).
  destruct (endReadingSession_bound _ n r2.2 _ _ _ _ _ Hfinds Hmid Hne Hfindm Hn)
    as (_ & Hm3 & _ & _).
  fold r3 in Hr3, Hs3, Hm3.
  eexists _, _. split_and!.
  - by rewrite getManga_run, Hm3.
  - cbn [snd]. rewrite currentChapter_advanced, Hcc. by apply addNum_exact.
  - cbn [snd]. change (Manga.title ?m) with (Manga.get Manga.Ftitle m).
    rewrite get_advanced by done.
    by destruct mangaData as [? ? ? ? ? ? ? ? ? ? [t|] ? ?].
  - exact Hr3.
  - done.
  - done.
  - rewrite Hs3, Hs, Hs1.
    rewrite <- (Nat.add_0_r (length (readingSessions (data w)))).
    by rewrite insert_app_r.
  - unfold activeSessions. rewrite Hs3, Hs, Hs1.
    rewrite <- (Nat.add_0_r (length (readingSessions (data w)))).
    rewrite insert_app_r. cbn [insert list_insert].
    rewrite filter_app, filter_cons_False, filter_nil, app_nil_r; done.
Qed.

Lemma create_read_advance_witness :
  let w := freshWorld 1000 1 "r" in
  let r1 := MangaTracker.addManga (MangaData.named "Solo Leveling") w in
  let r2 := MangaTracker.startReadingSession (Some (Manga.id r1.1)) r1.2 in
  let r3 := MangaTracker.endReadingSession (Session.id r2.1) (Some 5%Z) r2.2 in
  exists m',
    (MangaTracker.getManga (Manga.id r1.1) r3.2).1 = Some m' /\
    Manga.currentChapter m' = 5%Z.
Proof.
  intros w r1 r2 r3.
  destruct (create_read_advance (MangaData.named "Solo Leveling") 5 w)
    as (m' & session' & Hget & Hcc & _).
  - lia.
  - vm_compute. discriminate.
  - vm_compute. by intros ?%elem_of_nil.
  - vm_compute. by intros ?%elem_of_nil.
  - exists m'. split; [exact Hget|exact Hcc].
Defined.

(** ** Sorting *)

Section SortWith.

Context {A : Type} (compare : A -> A -> comparison).

Lemma insertSorted_Permutation (x : A) (l : list A) :
  UIController.insertSorted compare x l ≡ₚ x :: l.
Proof.
  induction l as [|y l IH]; [done|]. cbn [UIController.insertSorted].
  destruct (compare x y); [done..|]. rewrite IH. apply Permutation_swap.
Qed.

Lemma sortWith_Permutation (l : list A) : UIController.sortWith compare l ≡ₚ l.
Proof.
  induction l as [|x l IH]; [done|]. cbn.
  by rewrite insertSorted_Permutation, IH.
Qed.

Lemma sortWith_Eq (l : list A) :
  (forall a b, compare a b = Eq) -> UIController.sortWith compare l = l.
Proof.
  intros Heq. induction l as [|x l IH]; [done|]. cbn. fold (UIController.sortWith compare l).
  rewrite IH. destruct l as [|y l]; [done|]. cbn. by rewrite Heq.
Qed.

End SortWith.

Section SortByKey.

Context {A : Type} (key : A -> Z).

Let compare : A -> A -> comparison := fun a b => (key b ?= key a)%Z.

Lemma insertSorted_descending (x : A) (l : list A) :
  StronglySorted (descending key) l ->
  StronglySorted (descending key) (UIController.insertSorted compare x l).
Proof.
  induction l as [|y l IH]; intros Hl; cbn [UIController.insertSorted].
  - repeat constructor.
  - apply StronglySorted_cons in Hl as [Hy Hl]. unfold compare at 1.
    destruct (Z.compare_spec (key y) (key x)) as [Heq|Hlt|Hgt].
    + apply StronglySorted_cons. split; [|by apply StronglySorted_cons].
      constructor; [unfold descending; lia|].
      eapply Forall_impl; [exact Hy|]. unfold descending. intros; lia.
    + apply StronglySorted_cons. split; [|by apply StronglySorted_cons].
      constructor; [unfold descending; lia|].
      eapply Forall_impl; [exact Hy|]. unfold descending. intros; lia.
    + apply StronglySorted_cons. split; [|by apply IH].
      rewrite insertSorted_Permutation. constructor; [|done].
      unfold descending. lia.
Qed.

Lemma sortWith_descending (l : list A) :
  StronglySorted (descending key) (UIController.sortWith compare l).
Proof.
  induction l as [|x l IH]; [constructor|]. cbn.
  by apply insertSorted_descending.
Qed.

(** The element inserted comes before the elements with its key. *)
Lemma insertSorted_filter_key (v : Z) (x : A) (l : list A) :
  filter (fun a => key a = v) (UIController.insertSorted compare x l)
  = filter (fun a => key a = v) (x :: l).
Proof.
  induction l as [|y l IH]; [done|]. cbn [UIController.insertSorted].
  unfold compare at 1.
  destruct (Z.compare_spec (key y) (key x)) as [Heq|Hlt|Hgt]; [done..|].
  rewrite filter_cons, IH, !filter_cons.
  repeat case_decide; try done. lia.
Qed.

Lemma sortWith_filter_key (v : Z) (l : list A) :
  filter (fun a => key a = v) (UIController.sortWith compare l)
  = filter (fun a => key a = v) l.
Proof.
  induction l as [|x l IH]; [done|]. cbn.
  fold (UIController.sortWith compare l).
  by rewrite insertSorted_filter_key, !filter_cons, IH.
Qed.

End SortByKey.

(** X10. [sortManga] never loses or doubles a title, whatever the sort
    key and the comparison of the host. By last read, by rating or by
    creation date the result is ordered largest first, and the titles that
    have the same value keep the order they had. With a sort key it does
    not know it leaves the list as it is. *)
Theorem sortManga_spec (localeCompare : string -> string -> comparison)
    (mangaList : list Manga.t) (sortBy : string) :
  let sorted := UIController.sortManga localeCompare mangaList sortBy in
  sorted ≡ₚ mangaList /\
  (forall key, sortKey sortBy = Some key ->
     StronglySorted (descending key) sorted /\
     forall v, filter (fun m => key m = v) sorted
               = filter (fun m => key m = v) mangaList) /\
  (sortBy ∉ knownSortBy -> sorted = mangaList).
Proof.
  cbn zeta. unfold UIController.sortManga. split_and!.
  - apply sortWith_Permutation.
  - unfold sortKey, UIController.compareBy. intros key Hkey.
    destruct (String.eqb_spec sortBy "lastRead") as [->|?];
      [simplify_eq; cbn; split;
       [apply (sortWith_descending UIController.lastReadDate)
       |intros v; apply (sortWith_filter_key UIController.lastReadDate)]|].
    destruct (String.eqb_spec sortBy "rating") as [->|?];
      [simplify_eq; cbn; split;
       [apply (sortWith_descending (fun m => orNum (Manga.rating m) 0))
       |intros v; apply (sortWith_filter_key (fun m => orNum (Manga.rating m) 0))]|].
    destruct (String.eqb_spec sortBy "createdAt") as [->|?]; [|done].
    simplify_eq; cbn; split;
      [apply (sortWith_descending Manga.createdAt)
      |intros v; apply (sortWith_filter_key Manga.createdAt)].
  - intros Hunknown. apply sortWith_Eq. intros a b.
    unfold UIController.compareBy, knownSortBy in *.
    repeat match goal with
           | |- context [String.eqb sortBy ?s] =>
               destruct (String.eqb_spec sortBy s) as [->|?];
               [exfalso; apply Hunknown; repeat constructor|]
           end.
    done.
Qed.

Lemma sortManga_spec_witness :
  let l := manga (data threeTitlesWorld) in
  Manga.title <$> l = ["Berserk"; "Vagabond"; "Monster"] /\
  StronglySorted (descending Manga.createdAt)
                 (UIController.sortManga String.compare l "createdAt") /\
  UIController.sortManga String.compare l "newest" = l.
Proof.
  intros l. split; [reflexivity|].
  destruct (sortManga_spec String.compare l "createdAt") as (_ & Hkey & _).
  destruct (sortManga_spec String.compare l "newest") as (_ & _ & Hunknown).
  split.
  - apply (Hkey Manga.createdAt eq_refl).
  - apply Hunknown. unfold knownSortBy.
    intros H. repeat (apply elem_of_cons in H as [H|H]; [discriminate|]).
    by apply elem_of_nil in H.
Defined.

(** ** The page of titles sorts the store *)

Lemma searchManga_world toLowerCase query filters w :
  (MangaTracker.searchManga toLowerCase query filters w).2 = w.
Proof. reflexivity. Qed.

(** When [searchManga] returns the array of the store it returns all the
    titles. *)
Lemma searchReturnsStore_all toLowerCase query filters w :
  UIController.searchReturnsStore query filters = true ->
  (MangaTracker.searchManga toLowerCase query filters w).1 = manga (data w).
Proof.
  unfold UIController.searchReturnsStore, MangaTracker.searchManga.
  rewrite !andb_true_iff, !negb_true_iff. intros [[[Hq Hs] Ht] Hg].
  rewrite bind_run. cbn [getData ret fst snd]. rewrite Hq.
  destruct filters as [[s|] [t|] [g|]]; cbn in *;
    rewrite ?Hs, ?Ht; try done.
  all: apply bool_decide_eq_false in Hg; by rewrite decide_False.
Qed.




(** ** The analytics page sorts the store *)

(** X12. The list of top titles of the analytics page is taken by sorting
    the array of the store in place: afterwards the titles of the store
    are the same titles ordered by chapters read, most first, the list
    shown is the first five of them, no title left out has more chapters
    than one shown, and the storage is not written. *)
Theorem loadAnalytics_sorts_store (w : World) :
  let r := UIController.loadAnalyticsTopManga w in
  manga (data r.2) ≡ₚ manga (data w) /\
  StronglySorted (descending Manga.currentChapter) (manga (data r.2)) /\
  r.1 = take 5 (manga (data r.2)) /\
  (forall a b, a ∈ (r.1) -> b ∈ drop 5 (manga (data r.2)) ->
               (Manga.currentChapter b <= Manga.currentChapter a)%Z) /\
  besidesManga (data r.2) = besidesManga (data w) /\
  stored r.2 = stored w.
Proof.
  cbn zeta. unfold UIController.loadAnalyticsTopManga. rewrite !bind_run.
  cbn [MangaTracker.getAllManga bind getData setData ret fst snd data manga
       setManga stored UIController.getTopMangaByChapters].
  pose proof (sortWith_descending Manga.currentChapter (manga (data w))) as Hs.
  split_and!; try done.
  - apply sortWith_Permutation.
  - intros a b Ha Hb.
    rewrite <- (take_drop 5 (UIController.sortWith _ (manga (data w)))) in Hs.
    exact (StronglySorted_app_1_elem_of _ _ _ _ _ Hs Ha Hb).
Qed.

Lemma loadAnalytics_sorts_store_witness :
  let r := UIController.loadAnalyticsTopManga sixTitlesWorld in
  (Manga.title <$> r.1)
  = ["Vagabond"; "Pluto"; "Blame"; "Dorohedoro"; "Berserk"] /\
  exists a b,
    r.1 !! 0 = Some a /\ manga (data r.2) !! 5 = Some b /\
    (Manga.currentChapter b <= Manga.currentChapter a)%Z.
Proof.
  intros r. split; [vm_compute; reflexivity|].
  destruct (r.1 !! 0) as [a|] eqn:Ha; [|vm_compute in Ha; discriminate].
  destruct (manga (data r.2) !! 5) as [b|] eqn:Hb;
    [|vm_compute in Hb; discriminate].
  exists a, b. split_and!; [done..|].
  apply (proj1 (proj2 (proj2 (proj2
           (loadAnalytics_sorts_store sixTitlesWorld))))).
  - eapply list_elem_of_lookup_2, Ha.
  - eapply list_elem_of_lookup_2. rewrite lookup_drop. exact Hb.
Defined.

(** ** The tags selected *)

Lemma delete_lookup_NoDup {A} (l : list A) (i : nat) (x : A) :
  NoDup l -> l !! i = Some x ->
  NoDup (delete i l) /\ (x ∉ delete i l) /\
  (forall y, y <> x -> (y ∈ delete i l <-> y ∈ l)).
Proof.
  intros Hnd Hi. rewrite delete_take_drop.
  rewrite <- (take_drop_middle l i x Hi) in Hnd.
  apply NoDup_app in Hnd as (Ht & Hdisj & Hd).
  apply NoDup_cons in Hd as [Hx Hd].
  split_and!.
  - apply NoDup_app. split_and!; [done| |done].
    intros y Hy Hy'. apply (Hdisj y Hy). by right.
  - intros [Hin|Hin]%elem_of_app; [|done].
    apply (Hdisj x Hin). by left.
  - intros y Hy. rewrite <- (take_drop_middle l i x Hi) at 3.
    rewrite !elem_of_app, elem_of_cons. intuition congruence.
Qed.

(** X13. [toggleTagFilter] keeps the selected tags free of doubles,
    starting from none selected: the tag toggled is selected afterwards
    exactly when it was not before, the selection of every other tag is
    as before, and toggling a tag that was not selected twice gives back
    the list there was. *)
Theorem toggleTagFilter_spec (tag : string) (selectedTags : option (list string)) :
  let before := default [] selectedTags in
  let after := UIController.toggleTagFilter tag selectedTags in
  NoDup before ->
  NoDup after /\
  (tag ∈ after <-> tag ∉ before) /\
  (forall t, t <> tag -> (t ∈ after <-> t ∈ before)) /\
  (tag ∉ before -> UIController.toggleTagFilter tag (Some after) = before).
Proof.
  cbn zeta. unfold UIController.toggleTagFilter. intros Hnd.
  set (l := default [] selectedTags) in *.
  destruct (list_find (fun t => t = tag) l) as [[i x]|] eqn:Hfind.
  - apply list_find_Some in Hfind as (Hi & -> & _).
    destruct (delete_lookup_NoDup l i tag Hnd Hi) as (Hnd' & Hnot & Hothers).
    pose proof (list_elem_of_lookup_2 _ _ _ Hi) as Hin.
    split_and!; [done|tauto|done|tauto].
  - pose proof Hfind as Hnone. rewrite list_find_None, Forall_forall in Hnone.
    assert (tag ∉ l) as Hnot by (intros Hin; by apply (Hnone tag)).
    split_and!.
    + apply NoDup_app. split_and!; [done| |apply NoDup_singleton].
      intros y Hy ->%list_elem_of_singleton. done.
    + rewrite elem_of_app, list_elem_of_singleton. tauto.
    + intros t Ht. rewrite elem_of_app, list_elem_of_singleton. tauto.
    + intros _. change (default [] (Some (l ++ [tag]))) with (l ++ [tag]).
      rewrite list_find_snoc, Hfind, decide_True by done.
      rewrite (delete_middle l [] tag). apply app_nil_r.
Qed.

Lemma toggleTagFilter_spec_witness :
  UIController.toggleTagFilter "Action" None = ["Action"] /\
  NoDup (UIController.toggleTagFilter "Drama" (Some ["Action"; "Drama"])).
Proof.
  split; [reflexivity|].
  apply (toggleTagFilter_spec "Drama" (Some ["Action"; "Drama"])).
  apply NoDup_cons. split.
  - intros ?%list_elem_of_singleton. discriminate.
  - apply NoDup_singleton.
Defined.

(** ** Days and dates *)

Lemma ceilDiv_spec (a b : Z) :
  (0 < b)%Z ->
  ((UIController.ceilDiv a b - 1) * b < a <= UIController.ceilDiv a b * b)%Z.
Proof.
  intros Hb. unfold UIController.ceilDiv.
  pose proof (Z.div_mod (- a) b ltac:(lia)) as Hdm.
  pose proof (Z.mod_pos_bound (- a) b Hb) as Hm. nia.
Qed.

Lemma ceilDiv_unique (a b q : Z) :
  (0 < b)%Z -> ((q - 1) * b < a <= q * b)%Z -> UIController.ceilDiv a b = q.
Proof.
  intros Hb Hq. pose proof (ceilDiv_spec a b Hb) as Hc. nia.
Qed.

(** The [reduce] of [getDaysSinceFirstManga] ends on a title of the list
    that no title of the list was created before. *)
Lemma earliest_minimal (rest : list Manga.t) : forall first,
  let earliest :=
    foldl (fun earliest manga_ =>
             if (Manga.createdAt manga_ <? Manga.createdAt earliest)%Z
             then manga_ else earliest) first rest in
  earliest ∈ first :: rest /\
  forall m, m ∈ first :: rest ->
            (Manga.createdAt earliest <= Manga.createdAt m)%Z.
Proof.
  induction rest as [|x rest IH]; intros first; cbn [foldl].
  - split; [by left|]. by intros m ->%list_elem_of_singleton.
  - destruct (Z.ltb_spec (Manga.createdAt x) (Manga.createdAt first)) as [Hlt|Hge].
    + destruct (IH x) as [Hin Hmin]. split.
      * by right.
      * intros m [->|Hm]%elem_of_cons; [|by apply Hmin].
        specialize (Hmin x ltac:(by left)). lia.
    + destruct (IH first) as [Hin Hmin]. split.
      * apply elem_of_cons in Hin as [->|Hin]; [by left|]. by do 2 right.
      * intros m [->|[->|Hm]%elem_of_cons]%elem_of_cons.
        -- apply Hmin. by left.
        -- specialize (Hmin first ltac:(by left)). lia.
        -- apply Hmin. by right.
Qed.

(** X14. [getDaysSinceFirstManga] is never less than 1, whatever the
    clock and the creation dates, so that the average per day it divides
    never has a zero divisor. For no title it is 1 and the clock is not
    read; otherwise it is the number of days begun since the earliest
    creation date of the list, or 1 when that is less. *)
Theorem getDaysSinceFirstManga_spec (mangaList : list Manga.t) (w : World) :
  let r := UIController.getDaysSinceFirstManga mangaList w in
  (1 <= r.1)%Z /\
  data r.2 = data w /\
  (mangaList = [] -> r = (1%Z, w)) /\
  (mangaList <> [] ->
   exists earliest,
     earliest ∈ mangaList /\
     (forall m, m ∈ mangaList ->
                (Manga.createdAt earliest <= Manga.createdAt m)%Z) /\
     let elapsed := (clock w (clockReads w) - Manga.createdAt earliest)%Z in
     let days := r.1 in
     ((elapsed <= UIController.msPerDay)%Z -> days = 1%Z) /\
     ((UIController.msPerDay < elapsed)%Z ->
      ((days - 1) * UIController.msPerDay < elapsed
       <= days * UIController.msPerDay)%Z)).
Proof.
  cbn zeta. destruct mangaList as [|first rest];
    cbn [UIController.getDaysSinceFirstManga].
  - split_and!; done.
  - rewrite bind_run. cbn [now ret fst snd data].
    split_and!; [lia|done|done|]. intros _.
    destruct (earliest_minimal rest first) as [Hin Hmin].
    eexists. split_and!; [exact Hin|exact Hmin|..].
    + intros Hle.
      pose proof (ceilDiv_spec (clock w (clockReads w) - Manga.createdAt
        (foldl (fun earliest manga_ =>
             if (Manga.createdAt manga_ <? Manga.createdAt earliest)%Z
             then manga_ else earliest) first rest)) UIController.msPerDay
        ltac:(done)) as Hc.
      unfold UIController.msPerDay in *. nia.
    + intros Hgt.
      pose proof (ceilDiv_spec (clock w (clockReads w) - Manga.createdAt
        (foldl (fun earliest manga_ =>
             if (Manga.createdAt manga_ <? Manga.createdAt earliest)%Z
             then manga_ else earliest) first rest)) UIController.msPerDay
        ltac:(done)) as Hc.
      unfold UIController.msPerDay in *.
      rewrite Z.max_l; [lia|]. nia.
Qed.

Lemma getDaysSinceFirstManga_spec_witness :
  let l := manga (data threeTitlesWorld) in
  (1 <= (UIController.getDaysSinceFirstManga l (freshWorld 0 1 "r")).1)%Z /\
  (UIController.getDaysSinceFirstManga [] threeTitlesWorld).1 = 1%Z.
Proof.
  intros l. split.
  - apply (getDaysSinceFirstManga_spec l (freshWorld 0 1 "r")).
  - pose proof (proj1 (proj2 (proj2
        (getDaysSinceFirstManga_spec [] threeTitlesWorld))) eq_refl) as H.
    exact (f_equal fst H).
Defined.

(** X15. [formatDate] looks at the distance between the date and now,
    not at its direction or at the calendar: a date less than a day away,
    before or after now, is "Yesterday" unless it is this very
    millisecond, which is "0 days ago"; up to six days away it is the
    number of days begun, from seven days on the number of weeks begun,
    and beyond twenty-nine days the date as the host writes it. *)
Theorem formatDate_spec (toLocaleDateString : isoTime -> string)
    (date : isoTime) (w : World) :
  let r := UIController.formatDate toLocaleDateString date w in
  let away := Z.abs (clock w (clockReads w) - date) in
  let day := UIController.msPerDay in
  data r.2 = data w /\
  (away = 0%Z -> r.1 = "0 days ago") /\
  ((0 < away <= day)%Z -> r.1 = "Yesterday") /\
  ((day < away <= 6 * day)%Z ->
   exists n, (2 <= n <= 6)%Z /\ ((n - 1) * day < away <= n * day)%Z /\
             r.1 = pretty n +:+ " days ago") /\
  ((6 * day < away <= 29 * day)%Z ->
   exists n k, (7 <= n <= 29)%Z /\ ((n - 1) * day < away <= n * day)%Z /\
               (1 <= k <= 5)%Z /\ ((k - 1) * 7 < n <= k * 7)%Z /\
               r.1 = pretty k +:+ " weeks ago") /\
  ((29 * day < away)%Z -> r.1 = toLocaleDateString date).
Proof.
  cbn zeta. unfold UIController.formatDate. rewrite bind_run.
  cbn [now fst snd].
  set (away := Z.abs (clock w (clockReads w) - date)).
  pose proof (ceilDiv_spec away UIController.msPerDay ltac:(done)) as Hc.
  set (days := UIController.ceilDiv away UIController.msPerDay) in *.
  pose proof (ceilDiv_spec days 7 ltac:(done)) as Hw.
  set (weeks := UIController.ceilDiv days 7) in *.
  assert (0 < UIController.msPerDay)%Z as Hday by done.
  split_and!.
  - by repeat case_match.
  - intros H0. assert (days = 0%Z) as -> by nia. reflexivity.
  - intros H1. assert (days = 1%Z) as -> by nia. reflexivity.
  - intros H2. exists days.
    assert (2 <= days <= 6)%Z as Hd by nia. split_and!; [lia..|].
    destruct (Z.eqb_spec days 1); [lia|].
    destruct (Z.ltb_spec days 7); [done|lia].
  - intros H3. exists days, weeks.
    assert (7 <= days <= 29)%Z as Hd by nia.
    split_and!; [lia..|].
    destruct (Z.eqb_spec days 1); [lia|].
    destruct (Z.ltb_spec days 7); [lia|].
    destruct (Z.ltb_spec days 30); [done|lia].
  - intros H4. assert (30 <= days)%Z as Hd by nia.
    destruct (Z.eqb_spec days 1); [lia|].
    destruct (Z.ltb_spec days 7); [lia|].
    destruct (Z.ltb_spec days 30); [lia|done].
Qed.

Lemma formatDate_spec_witness :
  (UIController.formatDate (fun _ => "1/1/1970") 999%Z (freshWorld 1000 1 "r")).1
  = "Yesterday" /\
  (UIController.formatDate (fun _ => "1/1/1970") 1001%Z (freshWorld 1000 1 "r")).1
  = "Yesterday".
Proof.
  split.
  - apply (formatDate_spec (fun _ => "1/1/1970") 999%Z (freshWorld 1000 1 "r")).
    vm_compute. split; [reflexivity|discriminate].
  - apply (formatDate_spec (fun _ => "1/1/1970") 1001%Z (freshWorld 1000 1 "r")).
    vm_compute. split; [reflexivity|discriminate].
Defined.

(** ** Statistics *)


Lemma countStatus_cons (s : string) (m : Manga.t) (l : list Manga.t) :
  MangaTracker.countStatus s (m :: l)
  = ((if decide (Manga.status m = s) then 1 else 0)
     + MangaTracker.countStatus s l)%Z.
Proof.
  unfold MangaTracker.countStatus. rewrite filter_cons.
  case_decide; cbn [length]; lia.
Qed.

Lemma counted_once (s : string) :
  ((if decide (s = "reading") then 1 else 0)
   + (if decide (s = "completed") then 1 else 0)
   + (if decide (s = "on-hold") then 1 else 0)
   + (if decide (s = "dropped") then 1 else 0)
   + (if decide (s = "plan-to-read") then 1 else 0)
   = if decide (s ∈ countedStatuses) then 1 else 0)%Z.
Proof.
  destruct (decide (s = "reading")) as [->|N1]; [reflexivity|].
  destruct (decide (s = "completed")) as [->|N2]; [reflexivity|].
  destruct (decide (s = "on-hold")) as [->|N3]; [reflexivity|].
  destruct (decide (s = "dropped")) as [->|N4]; [reflexivity|].
  destruct (decide (s = "plan-to-read")) as [->|N5]; [reflexivity|].
  rewrite decide_False; [reflexivity|]. unfold countedStatuses.
  intros H. repeat (apply elem_of_cons in H as [H|H]; [done|]).
  by apply elem_of_nil in H.
Qed.

Lemma counts_sum (l : list Manga.t) :
  (MangaTracker.countStatus "reading" l + MangaTracker.countStatus "completed" l
   + MangaTracker.countStatus "on-hold" l + MangaTracker.countStatus "dropped" l
   + MangaTracker.countStatus "plan-to-read" l
   = Z.of_nat (length (filter (fun m => Manga.status m ∈ countedStatuses) l)))%Z.
Proof.
  induction l as [|m l IH]; [done|].
  rewrite !countStatus_cons, filter_cons.
  pose proof (counted_once (Manga.status m)) as Hm.
  destruct (decide (Manga.status m ∈ countedStatuses)); cbn [length]; lia.
Qed.

Lemma filter_Forall {A} (P : A -> Prop) `{!forall x, Decision (P x)} (l : list A) :
  Forall P l -> filter P l = l.
Proof.
  induction 1 as [|x l Hx _ IH]; [done|]. by rewrite filter_cons_True, IH.
Qed.

(** X16. In the statistics the five counts by status never add up to more
    than the number of titles, and they add up to it exactly when every
    title has one of the five statuses counted: a title with any other
    status is in the total and in no count. The closed sessions counted
    and the active ones make up the sessions, and the document is not
    changed. *)
Theorem getStatistics_counts (toDateString : isoTime -> string)
    (weekBefore monthBefore : isoTime -> isoTime) (w : World) :
  let r := MangaTracker.getStatistics toDateString weekBefore monthBefore w in
  let byStatus :=
    (MangaTracker.currentlyReading r.1 + MangaTracker.completed r.1
     + MangaTracker.onHold r.1 + MangaTracker.dropped r.1
     + MangaTracker.planToRead r.1)%Z in
  (byStatus <= MangaTracker.totalManga r.1)%Z /\
  (byStatus = MangaTracker.totalManga r.1 <->
   Forall (fun m => Manga.status m ∈ countedStatuses) (manga (data w))) /\
  (MangaTracker.totalReadingSessions r.1
   + Z.of_nat (length (activeSessions (data w)))
   = Z.of_nat (length (readingSessions (data w))))%Z /\
  data r.2 = data w.
Proof.
  cbn zeta.
  unfold MangaTracker.getStatistics, MangaTracker.getDailyProgress,
    MangaTracker.getWeeklyProgress, MangaTracker.getMonthlyProgress.
  rewrite !bind_run. cbn [getData now ret fst snd data
    MangaTracker.currentlyReading MangaTracker.completed MangaTracker.onHold
    MangaTracker.dropped MangaTracker.planToRead MangaTracker.totalManga
    MangaTracker.totalReadingSessions].
  rewrite counts_sum.
  set (l := manga (data w)).
  pose proof (length_filter (fun m => Manga.status m ∈ countedStatuses) l) as Hle.
  split_and!.
  - lia.
  - split.
    + intros Heq. apply Forall_forall. intros m Hm.
      destruct (decide (Manga.status m ∈ countedStatuses)) as [|Hn]; [done|].
      pose proof (length_filter_lt (fun m => Manga.status m ∈ countedStatuses)
                    l m Hm Hn). lia.
    + intros Hall. by rewrite filter_Forall.
  - unfold activeSessions. induction (readingSessions (data w)) as [|s ss IH];
      [done|].
    rewrite !filter_cons. destruct (Session.active s);
      repeat case_decide; try done; cbn [length]; lia.
  - done.
Qed.

Lemma getStatistics_counts_witness :
  let r := MangaTracker.getStatistics utcDay sevenDaysBefore thirtyDaysBefore
             swordArtWorld in
  (MangaTracker.currentlyReading r.1 + MangaTracker.completed r.1
   + MangaTracker.onHold r.1 + MangaTracker.dropped r.1
   + MangaTracker.planToRead r.1)%Z = MangaTracker.totalManga r.1.
Proof.
  apply (proj2 (proj1 (proj2
           (getStatistics_counts utcDay sevenDaysBefore thirtyDaysBefore
              swordArtWorld)))).
  vm_compute. repeat constructor.
Defined.

(** ** The timer *)



(** Replacing an element by one that answers the test alike moves no
    first match: the index found is the same, and the element found is
    the new one at the place replaced. *)
Lemma list_find_insert_iff {A} (P : A -> Prop) `{!forall x, Decision (P x)}
    (l : list A) (j : nat) (x y : A) :
  l !! j = Some x -> (P x <-> P y) ->
  list_find P (<[j := y]> l)
  = (fun p => (p.1, if decide (p.1 = j) then y else p.2)) <$> list_find P l.
Proof.
  revert j. induction l as [|a l IH]; intros [|j] Hj HP; try done.
  - cbn in Hj. injection Hj as ->. cbn.
    destruct (decide (P y)), (decide (P x)); try tauto.
    by destruct (list_find P l) as [[i z]|].
  - cbn in Hj. specialize (IH j Hj HP).
    change (<[S j := y]> (a :: l)) with (a :: <[j := y]> l).
    change (list_find P (a :: <[j := y]> l))
      with (if decide (P a) then Some (0, a)
            else prod_map S id <$> list_find P (<[j := y]> l)).
    change (list_find P (a :: l))
      with (if decide (P a) then Some (0, a)
            else prod_map S id <$> list_find P l).
    destruct (decide (P a)); [done|].
    rewrite IH.
    destruct (list_find P l) as [[i z]|]; [|done]. cbn.
    by destruct (decide (i = j)), (decide (S i = S j)); try lia.
Qed.

(** The titles keep their names through [updateManga] when the update
    gives neither [id] nor [title]. *)
Lemma updateManga_titles (mid id : string) (u : Manga.updates) (w : World) :
  u Manga.Fid = None -> u Manga.Ftitle = None ->
  Manga.title ∘ snd <$> MangaTracker.findManga mid
                          (data (MangaTracker.updateManga id u w).2)
  = Manga.title ∘ snd <$> MangaTracker.findManga mid (data w).
Proof.
  intros Hid Htitle.
  destruct (MangaTracker.findManga id (data w)) as [[i old]|] eqn:Hfind.
  - rewrite (updateManga_found id u w i old Hfind). cbn [snd data].
    unfold MangaTracker.findManga at 1. cbn [manga setManga].
    apply list_find_Some in Hfind as (Hi & _ & _).
    rewrite (list_find_insert_iff _ _ i old) by
      (first [done | by rewrite (get_updated Manga.Fid), Hid]).
    fold (MangaTracker.findManga mid (data w)).
    destruct (MangaTracker.findManga mid (data w)) as [[i' m]|] eqn:Hmid; [|done].
    cbn. f_equal. case_decide as Heq; [|done]. subst i'.
    apply list_find_Some in Hmid as (Hm & _ & _).
    assert (m = old) as -> by congruence.
    by rewrite (get_updated Manga.Ftitle), Htitle.
  - run. by rewrite Hfind.
Qed.

Lemma updateMangaProgress_titles (mid : string) session n w :
  Manga.title ∘ snd <$> MangaTracker.findManga mid
      (data (MangaTracker.updateMangaProgress session n w).2)
  = Manga.title ∘ snd <$> MangaTracker.findManga mid (data w).
Proof.
  unfold MangaTracker.updateMangaProgress.
  destruct (MangaTracker.progressTarget session n) as [target|]; [|done].
  rewrite bind_run. cbn [MangaTracker.getManga bind getData ret fst snd].
  destruct (MangaTracker.findManga target (data w)) as [[i m]|]; [|done].
  cbn [fmap option_fmap option_map snd].
  rewrite !bind_run. cbn [ret fst snd].
  by rewrite updateManga_titles.
Qed.

Lemma endReadingSession_titles (mid s : string) n w :
  Manga.title ∘ snd <$> MangaTracker.findManga mid
      (data (MangaTracker.endReadingSession s n w).2)
  = Manga.title ∘ snd <$> MangaTracker.findManga mid (data w).
Proof.
  destruct (MangaTracker.findSession s (data w)) as [[k session]|] eqn:Hfind.
  - destruct (endReadingSession_run s n w k session Hfind)
      as (w1 & -> & Hd & _ & _). cbn [snd].
    rewrite updateMangaProgress_titles.
    unfold MangaTracker.findManga. by rewrite Hd.
  - unfold MangaTracker.endReadingSession.
    rewrite bind_run. cbn [getData fst snd]. by rewrite Hfind.
Qed.

Lemma addToHistory_entry mid action details w :
  let e := (MangaTracker.addToHistory mid action details w).1 in
  HistoryEntry.mangaId e = mid /\ HistoryEntry.action e = action /\
  HistoryEntry.details e = details.
Proof. by run. Qed.

(** X18. [stopTimer] clears the timer, and writes one entry "read" at
    the head of the history when the session it holds names a title that
    is still in the store, with the name of that title and the chapters
    answered, [0] for no number. A session without title, or whose title
    was deleted in the meantime, leaves the history as it was. The session
    of the store is closed with the chapters answered whatever their
    sign. *)
Theorem stopTimer_history (input : UIController.answer) (session : Session.t)
    (w : World) :
  let r := UIController.stopTimer input (Some session) w in
  let chapters := orNum input 0 in
  r.1 = None /\
  (forall mid i m,
     Session.mangaId session = Some mid -> mid <> "" ->
     MangaTracker.findManga mid (data w) = Some (i, m) ->
     exists e d,
       history (data r.2) = take 100 (e :: history (data w)) /\
       HistoryEntry.mangaId e = mid /\
       HistoryEntry.action e = "read" /\
       HistoryEntry.details e =
         [("title", DStr (Manga.title m)); ("chaptersRead", DNum chapters);
          ("sessionDuration", DNum d)]) /\
  (Session.mangaId session = None \/ Session.mangaId session = Some "" \/
   (exists mid, Session.mangaId session = Some mid /\
                MangaTracker.findManga mid (data w) = None) ->
   history (data r.2) = history (data w)) /\
  (forall k,
     MangaTracker.findSession (Session.id session) (data w) = Some (k, session) ->
     readingSessions (data r.2)
     = <[k := ended session (clock w (clockReads w)) chapters]>
         (readingSessions (data w))).
Proof.
  cbn zeta. unfold UIController.stopTimer.
  rewrite !bind_run. cbn [ret fst snd].
  set (chapters := orNum input 0).
  set (w1 := (MangaTracker.endReadingSession (Session.id session)
                (Some chapters) w).2).
  assert (history (data w1) = history (data w)) as Hhist.
  { pose proof (endReadingSession_besidesMangaAndSessions
                  (Session.id session) (Some chapters) w) as H.
    by apply (f_equal (fun t => t.1.1.2)) in H. }
  assert (forall mid, Manga.title ∘ snd <$> MangaTracker.findManga mid (data w1)
                      = Manga.title ∘ snd <$> MangaTracker.findManga mid (data w))
    as Htitles by (intros; apply endReadingSession_titles).
  split_and!; [done|..].
  - intros mid i m Hmid Hne Hfind.
    specialize (Htitles mid). rewrite Hfind in Htitles. cbn in Htitles.
    destruct (MangaTracker.findManga mid (data w1)) as [[i1 m1]|] eqn:Hfind1;
      [|done].
    cbn in Htitles. injection Htitles as Htitle.
    unfold UIController.addReadToHistory. rewrite Hmid.
    rewrite (proj2 (truthyStr_true mid)) by done.
    rewrite bind_run, getManga_run, Hfind1.
    cbn [fmap option_fmap option_map snd].
    rewrite !bind_run. cbn [ret fst snd].
    rewrite addToHistory_history.
    match goal with
    | |- context [history (data ?w2)] =>
        change (history (data w2)) with (history (data w1))
    end.
    rewrite Hhist.
    eexists _, _. split; [reflexivity|].
    match goal with
    | |- context [MangaTracker.addToHistory ?a ?b ?c ?d] =>
        destruct (addToHistory_entry a b c d) as (-> & -> & ->)
    end.
    by rewrite Htitle.
  - intros Hnone. unfold UIController.addReadToHistory.
    destruct (Session.mangaId session) as [mid|] eqn:Hmid; [|done].
    destruct (decide (mid = "")) as [->|Hne]; [done|].
    rewrite (proj2 (truthyStr_true mid)) by done.
    destruct Hnone as [?|[?|(mid' & ? & Hfind)]]; [congruence..|].
    assert (mid' = mid) as -> by congruence.
    specialize (Htitles mid). rewrite Hfind in Htitles.
    rewrite bind_run, getManga_run.
    destruct (MangaTracker.findManga mid (data w1)) as [[i1 m1]|]; [done|].
    done.
  - intros k Hfind.
    destruct (endReadingSession_found _ (Some chapters) w k session Hfind)
      as (_ & Hs & _).
    change (default 0%Z (Some chapters)) with chapters in Hs.
    rewrite <- Hs. fold w1.
    unfold UIController.addReadToHistory.
    destruct (Session.mangaId session) as [mid|]; [|done].
    destruct (truthyStr mid); [|done].
    rewrite bind_run, getManga_run.
    destruct (MangaTracker.findManga mid (data w1)) as [[i1 m1]|]; [|done].
    cbn [fmap option_fmap option_map snd].
    rewrite !bind_run. cbn [ret fst snd]. by run.
Qed.

Lemma stopTimer_history_witness :
  let w := freshWorld 1000 1 "r" in
  let r1 := MangaTracker.addManga (MangaData.named "Berserk") w in
  let r2 := MangaTracker.startReadingSession (Some (Manga.id r1.1)) r1.2 in
  let r3 := UIController.stopTimer (Some 2%Z) (Some r2.1) r2.2 in
  exists e, head (history (data r3.2)) = Some e /\
            HistoryEntry.action e = "read" /\
            HistoryEntry.mangaId e = Manga.id r1.1.
Proof.
  intros w r1 r2 r3.
  pose proof (stopTimer_history (Some 2%Z) r2.1 r2.2) as H.
  apply proj2, proj1 in H.
  destruct (H (Manga.id r1.1) 0 r1.1) as (e & d & Hh & Hid & Ha & _).
  - vm_compute. reflexivity.
  - vm_compute. discriminate.
  - vm_compute. reflexivity.
  - exists e. split; [|split; [exact Ha|exact Hid]].
    exact (eq_trans (f_equal head Hh) eq_refl).
Defined.

(** ** Searches *)

Lemma searchManga_passes toLowerCase query filters w :
  (MangaTracker.searchManga toLowerCase query filters w).1
  = filter (passes toLowerCase query filters) (manga (data w)).
Proof.
  unfold MangaTracker.searchManga, bind, ret, getData. cbn [fst].
  rewrite filter_askedTags, !filter_askedFor.
  destruct (truthyStr query) eqn:Hq.
  - apply truthyStr_true in Hq. rewrite !list_filter_filter.
    apply list_filter_iff. intros m. unfold passes.
    rewrite textMatch_spec. tauto.
  - apply truthyStr_false in Hq. subst query. rewrite !list_filter_filter.
    apply list_filter_iff. intros m. unfold passes. tauto.
Qed.

(** X19. With no text, [searchManga] returns the titles that pass the
    status, kind and tag filters, in the order of the store, whatever
    their names; with a text or without, what it returns is a
    subsequence of the titles of the store, and the world is left as it
    was. *)
Theorem searchManga_no_text (toLowerCase : string -> string)
    (filters : MangaTracker.Filters) (w : World) :
  (MangaTracker.searchManga toLowerCase "" filters w).1
  = filter (passesFilters filters) (manga (data w)) /\
  forall query,
    let r := MangaTracker.searchManga toLowerCase query filters w in
    r.1 `sublist_of` manga (data w) /\ r.2 = w.
Proof.
  split.
  - rewrite searchManga_passes. apply list_filter_iff. intros m.
    unfold passes, passesFilters. tauto.
  - intros query. cbn zeta. rewrite searchManga_passes.
    split; [apply sublist_filter|done].
Qed.

(** X20. The list [filterManga] or [searchLibrary] draws holds each title
    of the store that passes the text and the filters of the page as
    often as the store holds it, and no other, whatever the sort key; and
    the store holds after the call the titles it held before, in place or
    moved. *)
Theorem lists_show_what_passes (toLowerCase : string -> string)
    (localeCompare : string -> string -> comparison)
    (search statusFilter typeFilter sortBy : string)
    (selectedTags : option (list string)) (w : World) :
  let r := UIController.filterManga toLowerCase localeCompare search
             statusFilter typeFilter sortBy selectedTags w in
  let r' := UIController.searchLibrary toLowerCase localeCompare search
              statusFilter typeFilter sortBy w in
  r.1 ≡ₚ filter (passes toLowerCase (toLowerCase search)
                   (MangaTracker.mkFilters (Some statusFilter) (Some typeFilter)
                                           (Some (default [] selectedTags))))
                (manga (data w)) /\
  manga (data r.2) ≡ₚ manga (data w) /\
  r'.1 ≡ₚ filter (passes toLowerCase (toLowerCase search)
                    (MangaTracker.mkFilters (Some statusFilter) (Some typeFilter)
                                            None))
                 (manga (data w)) /\
  manga (data r'.2) ≡ₚ manga (data w).
Proof.
  cbn zeta.
  assert (forall query filters,
            let r := UIController.searchAndSort toLowerCase localeCompare
                       query filters sortBy w in
            r.1 ≡ₚ filter (passes toLowerCase query filters) (manga (data w)) /\
            manga (data r.2) ≡ₚ manga (data w)) as H.
  { intros query filters. cbn zeta. unfold UIController.searchAndSort.
    rewrite !bind_run. rewrite searchManga_world.
    destruct (UIController.searchReturnsStore query filters) eqn:Halias.
    - assert (filter (passes toLowerCase query filters) (manga (data w))
              = manga (data w)) as ->.
      { rewrite <- searchManga_passes. by apply searchReturnsStore_all. }
      rewrite (searchReturnsStore_all _ _ _ _ Halias). cbn.
      split; apply sortWith_Permutation.
    - cbn. split; [|done]. rewrite <- searchManga_passes.
      apply sortWith_Permutation. }
  unfold UIController.filterManga, UIController.searchLibrary.
  split_and!; apply H.
Qed.
